(** * celery-tools: cache-backed locks and semaphores, and the logged task wrappers

    A shallow embedding of [celery_tools/concurrency.py],
    [celery_tools/base_tasks.py] and [celery_tools/signals.py].  Python
    integers are [Z]; the Django cache is
    a finite map from keys to integers; a method is a computation that threads
    the cache and either returns a value or raises. *)

From Stdlib Require Import ZArith String Ascii List Lia.
From stdpp Require Import base option gmap strings list pretty.

Local Open Scope string_scope.
Local Open Scope Z_scope.

(** ** Effects: shared state and Python exceptions *)

(** [ValueError] is the exception the modelled code raises itself and receives
    from the cache; the message is kept to tell the raise sites apart.  The
    wrapped work of a task may raise anything else. *)
Inductive exn : Type :=
| ValueError (msg : string)
| OtherError (cls msg : string).

Inductive result (A : Type) : Type :=
| Return (a : A)
| Raise (e : exn).

Arguments Return {A} a.
Arguments Raise {A} e.

(** A computation over a state [S].  The state reached is reported on both
    outcomes: a Python exception does not roll back the writes made before it. *)
Definition eff (S A : Type) : Type := S -> S * result A.

Definition ret {S A : Type} (a : A) : eff S A :=
  fun s => (s, Return a).

Definition raise {S A : Type} (e : exn) : eff S A :=
  fun s => (s, Raise e).

Definition bind {S A B : Type} (m : eff S A) (k : A -> eff S B) : eff S B :=
  fun s =>
    match m s with
    | (s', Return a) => k a s'
    | (s', Raise e) => (s', Raise e)
    end.

Declare Scope py_scope.
Delimit Scope py_scope with py.
Notation "'let*' x := m 'in' k" := (bind m (fun x => k))
  (at level 10, x name, m at level 99, k at level 200) : py_scope.
Notation "m >> k" := (bind m (fun _ => k))
  (at level 100, k at level 200, right associativity) : py_scope.
Local Open Scope py_scope.

Definition is_raise {S A : Type} (r : S * result A) : bool :=
  match r with
  | (_, Raise _) => true
  | (_, Return _) => false
  end.

(** Python truth value of an integer, as tested by [not v] and [if v]. *)
Definition truthy (v : Z) : bool := negb (v =? 0).

(** ** The shared cache *)

Abbreviation store := (gmap string Z).

(** Modelled from the spec: [django.core.cache.cache], the shared counter
    store, is an external collaborator and is not under src/.  The operations
    follow the interface of sections 2 and 6 (get with a default, set if
    absent, set, delete, increment, decrement) and Django's cache API, where
    [incr] and [decr] on a missing key raise [ValueError].  Expiry is not
    modelled: the timeout is accepted and no entry expires between calls. *)
Module cache.

Definition get (key : string) (default : Z) : eff store Z :=
  fun c => (c, Return (from_option id default (c !! key))).

Definition add (key : string) (value : Z) (timeout : option Z) : eff store bool :=
  fun c =>
    match c !! key with
    | None => (<[key := value]> c, Return true)
    | Some _ => (c, Return false)
    end.

Definition set (key : string) (value : Z) (timeout : option Z) : eff store unit :=
  fun c => (<[key := value]> c, Return tt).

Definition delete (key : string) : eff store unit :=
  fun c => (base.delete key c, Return tt).

Definition incr (key : string) (delta : Z) : eff store Z :=
  fun c =>
    match c !! key with
    | None => (c, Raise (ValueError ("Key '" ++ key ++ "' not found")%string))
    | Some v => (<[key := v + delta]> c, Return (v + delta))
    end.

Definition decr (key : string) (delta : Z) : eff store Z :=
  incr key (- delta).

End cache.

(** ** [concurrency.CacheLock] *)

Module CacheLock.

Record t : Type := { _cache_key : string; _timeout : option Z }.

Definition __init__ (cache_key : string) (timeout : option Z) : t :=
  {| _cache_key := cache_key; _timeout := timeout |}.

Definition locked (self : t) : eff store bool :=
  let* v := cache.get (_cache_key self) 0 in
  ret (v =? 1).

Definition acquire (self : t) : eff store bool :=
  let* held := locked self in
  if negb held then
    cache.add (_cache_key self) 1 (_timeout self) >>
    ret true
  else
    ret false.

Definition release (self : t) : eff store unit :=
  cache.delete (_cache_key self).

Definition __del__ (self : t) : eff store unit :=
  release self.

End CacheLock.

(** ** [concurrency.CacheSemaphore] *)

Module CacheSemaphore.

Record t : Type := { _cache_key : string }.

(** [cache.get(key, False)]: [False] is the integer 0 and only the truth
    value of the answer is used. *)
Definition __init__ (cache_key : string) (value : Z) : eff store t :=
  let self := {| _cache_key := cache_key |} in
  let* present := cache.get (_cache_key self) 0 in
  (if negb (truthy present) then cache.set (_cache_key self) value None
   else ret tt) >>
  ret self.

Definition value (self : t) : eff store Z :=
  cache.get (_cache_key self) 0.

Definition acquire (self : t) (units : Z) : eff store bool :=
  let* current_value := value self in
  if (current_value <? 1) || (current_value <? units) then
    raise (ValueError "Semaphore cannot be acquired")
  else
    cache.decr (_cache_key self) units >>
    ret true.

Definition acquire_all (self : t) : eff store Z :=
  let* v := value self in
  acquire self v >>
  ret v.

Definition locked (self : t) : eff store bool :=
  let* v := value self in
  ret (v <? 1).

Definition release (self : t) (units : Z) : eff store unit :=
  cache.incr (_cache_key self) units >>
  ret tt.

Definition delete (self : t) : eff store unit :=
  cache.delete (_cache_key self).

Definition __del__ (self : t) : eff store unit :=
  delete self.

End CacheSemaphore.

(** ** [concurrency.CacheBoundedSemaphore] *)

Module CacheBoundedSemaphore.

(** The subclass adds [_max_value] to the inherited key; [value], [acquire],
    [acquire_all], [locked] and [delete] are inherited through [super]. *)
Record t : Type := { super : CacheSemaphore.t; _max_value : Z }.

Definition _cache_key (self : t) : string :=
  CacheSemaphore._cache_key (super self).

Definition __init__ (cache_key : string) (value : Z) (max_value : option Z)
  : eff store t :=
  let* base := CacheSemaphore.__init__ cache_key value in
  let max_value := from_option id value max_value in
  if value >? max_value then
    raise (ValueError "Initial value cannot be greater than max value")
  else
    ret {| super := base; _max_value := max_value |}.

Definition value (self : t) : eff store Z :=
  CacheSemaphore.value (super self).

Definition acquire (self : t) (units : Z) : eff store bool :=
  CacheSemaphore.acquire (super self) units.

Definition acquire_all (self : t) : eff store Z :=
  CacheSemaphore.acquire_all (super self).

Definition full (self : t) : eff store bool :=
  let* v := cache.get (_cache_key self) (_max_value self) in
  ret (v >=? _max_value self).

Definition release (self : t) (units : Z) : eff store unit :=
  let* current_value := value self in
  let units :=
    if units >? _max_value self - current_value
    then _max_value self - current_value
    else units in
  cache.incr (_cache_key self) units >>
  ret tt.

Definition release_all (self : t) : eff store unit :=
  let* v := value self in
  release self (_max_value self - v).

Definition __del__ (self : t) : eff store unit :=
  CacheSemaphore.__del__ (super self).

End CacheBoundedSemaphore.

(** ** Python values seen by the task wrappers *)

Inductive pyval : Type :=
| PyNone
| PyBool (b : bool)
| PyInt (z : Z)
| PyStr (s : string).

(** [str(v)] *)
Definition py_str (v : pyval) : string :=
  match v with
  | PyNone => "None"
  | PyBool true => "True"
  | PyBool false => "False"
  | PyInt z => pretty z
  | PyStr s => s
  end.

(** [str.lower] on ASCII text; other characters are left as they are. *)
Definition lower_ascii (a : ascii) : ascii :=
  let n := nat_of_ascii a in
  if ((65 <=? n) && (n <=? 90))%nat then ascii_of_nat (n + 32) else a.

Fixpoint lower (s : string) : string :=
  match s with
  | EmptyString => EmptyString
  | String a rest => String (lower_ascii a) (lower rest)
  end.

Record call_args : Type :=
  { args : list pyval; kwargs : list (string * pyval) }.

(** ** The world of a task: the cache and the trace of calls made *)

Inductive log_level : Type := INFO | ERROR.

(** The trace is ghost state.  It records, in order, the calls a wrapper makes
    to its collaborators: the logger, the lock, the wrapped work and the
    generic hooks of celery's [Task]. *)
Inductive event : Type :=
| EvLog (level : log_level) (fmt : string) (fmt_args : list string)
        (exc_info : option exn)
| EvLockAcquire (key : string)
| EvLockRelease (key : string)
| EvRun (a : call_args)
| EvTaskOnSuccess (retval : pyval) (task_id : string)
| EvTaskOnFailure (exc : exn) (task_id : string).

Record world : Type := { w_cache : store; w_trace : list event }.

Definition emit (e : event) : eff world unit :=
  fun w => ({| w_cache := w_cache w; w_trace := w_trace w ++ [e] |}, Return tt).

Definition on_cache {A : Type} (m : eff store A) : eff world A :=
  fun w =>
    let '(c, r) := m (w_cache w) in
    ({| w_cache := c; w_trace := w_trace w |}, r).

Definition traced {A : Type} (e : event) (m : eff store A) : eff world A :=
  emit e >> on_cache m.

(** Modelled from the spec: [celery.Task], the base class from
    [current_app], is not under src/.  Its [__call__] runs the task's [run]
    on the call's arguments; its [on_success] and [on_failure] are the generic
    hooks, which do nothing but are recorded. *)
Module Task.

Definition __call__ (run : call_args -> eff store pyval) (a : call_args)
  : eff world pyval :=
  traced (EvRun a) (run a).

Definition on_success (retval : pyval) (task_id : string) (a : call_args)
  : eff world unit :=
  emit (EvTaskOnSuccess retval task_id).

Definition on_failure (exc : exn) (task_id : string) (a : call_args)
  : eff world unit :=
  emit (EvTaskOnFailure exc task_id).

End Task.

(** ** [base_tasks.LoggedTask] *)

Module LoggedTask.

(** [run] is the wrapped work, supplied by the concrete task class.  The
    logger of the instance is not a field: its calls are the [EvLog] events. *)
Record t : Type :=
  { TAG : string; run : call_args -> eff store pyval }.

Definition __call__ (self : t) (a : call_args) : eff world pyval :=
  emit (EvLog INFO "%s > Task started" [TAG self] None) >>
  Task.__call__ (run self) a.

Definition on_success (self : t) (retval : pyval) (task_id : string)
  (a : call_args) : eff world unit :=
  emit (EvLog INFO "%s > Task (%s) completed with result: %s"
          [TAG self; task_id; py_str retval] None) >>
  Task.on_success retval task_id a.

Definition on_failure (self : t) (exc : exn) (task_id : string)
  (a : call_args) : eff world unit :=
  emit (EvLog ERROR "%s > Task (%s) failed" [TAG self; task_id] (Some exc)) >>
  Task.on_failure exc task_id a.

End LoggedTask.

(** ** [base_tasks.LoggedSingleTask] *)

Module LoggedSingleTask.

Record t : Type := { super : LoggedTask.t; lock : CacheLock.t }.

Definition __init__ (base : LoggedTask.t) : t :=
  let lock_id := ("lock_" ++ lower (LoggedTask.TAG base))%string in
  {| super := base; lock := CacheLock.__init__ lock_id None |}.

Definition lock_acquire (self : t) : eff world bool :=
  traced (EvLockAcquire (CacheLock._cache_key (lock self)))
    (CacheLock.acquire (lock self)).

Definition lock_release (self : t) : eff world unit :=
  traced (EvLockRelease (CacheLock._cache_key (lock self)))
    (CacheLock.release (lock self)).

Definition __call__ (self : t) (a : call_args) : eff world pyval :=
  let* acquired := lock_acquire self in
  if acquired then
    let* result := LoggedTask.__call__ (super self) a in
    lock_release self >>
    ret result
  else
    ret (PyBool false).

Definition on_success (self : t) (retval : pyval) (task_id : string)
  (a : call_args) : eff world unit :=
  lock_release self >>
  LoggedTask.on_success (super self) retval task_id a.

Definition on_failure (self : t) (exc : exn) (task_id : string)
  (a : call_args) : eff world unit :=
  lock_release self >>
  LoggedTask.on_failure (super self) exc task_id a.

End LoggedSingleTask.

(** ** The life of one task instance *)

Inductive task_state : Type :=
| SUCCESS (retval : pyval)
| FAILURE (exc : exn).

(** Modelled from the spec: the worker that drives a task instance (celery's
    task tracer) is not under src/.  Following section 4.4, the instance is
    invoked; when the invocation returns, whatever the value, the success hook
    runs with it, and when it raises the failure hook runs with the exception. *)
Definition trace_task (task : LoggedSingleTask.t) (task_id : string)
  (a : call_args) : eff world task_state :=
  fun w =>
    match LoggedSingleTask.__call__ task a w with
    | (w', Return retval) =>
        (LoggedSingleTask.on_success task retval task_id a >>
         ret (SUCCESS retval)) w'
    | (w', Raise exc) =>
        (LoggedSingleTask.on_failure task exc task_id a >>
         ret (FAILURE exc)) w'
    end.

Definition is_release (e : event) : bool :=
  match e with
  | EvLockRelease _ => true
  | _ => false
  end.

(** Number of lock releases invoked along a trace. *)
Definition release_count (tr : list event) : nat :=
  length (filter (fun e => is_release e = true) tr).

(** ** Observations and example inputs *)

(** The counter a semaphore handle reads for [key]: what [value()] returns. *)
Definition counter (key : string) (c : store) : Z :=
  from_option id 0 (c !! key).

(** The bound of a bounded semaphore, on the counter its handle reads. *)
Definition bounded (self : CacheBoundedSemaphore.t) (c : store) : Prop :=
  0 <= counter (CacheBoundedSemaphore._cache_key self) c
    <= CacheBoundedSemaphore._max_value self.

Definition sync_lock : CacheLock.t := CacheLock.__init__ "lock_sync" None.

Definition sem : CacheSemaphore.t := {| CacheSemaphore._cache_key := "sem" |}.

Definition sem_max5 : CacheBoundedSemaphore.t :=
  {| CacheBoundedSemaphore.super := sem; CacheBoundedSemaphore._max_value := 5 |}.

Definition no_args : call_args := {| args := []; kwargs := [] |}.

(** A single-instance task tagged [Sync] whose work returns 7. *)
Definition sync_task : LoggedSingleTask.t :=
  LoggedSingleTask.__init__
    {| LoggedTask.TAG := "Sync"; LoggedTask.run := fun _ => ret (PyInt 7) |}.

Definition fresh_world : world := {| w_cache := ∅; w_trace := [] |}.

(** ** [signals.prevent_single_task_duplication] *)

(** What the hook looks at on a task of the registry:
    [getattr(task, 'single_run', False)], [hasattr(task, 'lock')] with
    [task.lock], and [task.TAG].  [None] stands for a missing attribute. *)
Record registered : Type :=
  { reg_single_run : option bool;
    reg_lock : option CacheLock.t;
    reg_TAG : string }.

(** A [LoggedTask] has neither [single_run] nor [lock]. *)
Definition registered_logged (t : LoggedTask.t) : registered :=
  {| reg_single_run := None; reg_lock := None; reg_TAG := LoggedTask.TAG t |}.

(** A [LoggedSingleTask] has the class attribute [single_run = True] and the
    lock made by its initializer. *)
Definition registered_single (t : LoggedSingleTask.t) : registered :=
  {| reg_single_run := Some true;
     reg_lock := Some (LoggedSingleTask.lock t);
     reg_TAG := LoggedTask.TAG (LoggedSingleTask.super t) |}.

(** What the hook does to its collaborators: a record on the
    ['celery.tasks'] logger, a [revoke] sent to the application's control. *)
Inductive control_event : Type :=
| CtlLog (logger fmt : string) (fmt_args : list string)
| CtlRevoke (task_id : string).

Record dispatch : Type := { d_cache : store; d_events : list control_event }.

Definition d_emit (e : control_event) : eff dispatch unit :=
  fun d =>
    ({| d_cache := d_cache d; d_events := d_events d ++ [e] |}, Return tt).

Definition d_on_cache {A : Type} (m : eff store A) : eff dispatch A :=
  fun d =>
    let '(c, r) := m (d_cache d) in
    ({| d_cache := c; d_events := d_events d |}, r).

(** [body['id']]: a missing key raises [KeyError]. *)
Definition body_id (body : gmap string string) : eff dispatch string :=
  match body !! "id" with
  | Some task_id => ret task_id
  | None => raise (OtherError "KeyError" "'id'")
  end.

(** [tasks] is [current_app.tasks]; [tasks.get(sender)] is [None] for an
    unknown name, on which [getattr(None, 'single_run', False)] is [False].
    The conjunction is evaluated left to right and stops at the first false
    operand, so [locked()] is only called on a task that has a lock. *)
Definition prevent_single_task_duplication
  (tasks : gmap string registered) (sender : string)
  (body : gmap string string) : eff dispatch unit :=
  match tasks !! sender with
  | None => ret tt
  | Some task =>
      if from_option id false (reg_single_run task) then
        match reg_lock task with
        | None => ret tt
        | Some lock =>
            let* held := d_on_cache (CacheLock.locked lock) in
            if held then
              let* task_id := body_id body in
              d_emit (CtlLog "celery.tasks"
                        "%s > Task (%s) revoked due is currently being executed"
                        [reg_TAG task; task_id]) >>
              let* task_id := body_id body in
              d_emit (CtlRevoke task_id)
            else ret tt
        end
      else ret tt
  end.

(** ** Sequences of calls on a bounded semaphore *)

Inductive sem_call : Type :=
| CallAcquire (units : Z)
| CallAcquireAll
| CallRelease (units : Z)
| CallReleaseAll.

(** The store after one call; a caller that catches the exception of a
    refused call goes on from the store the call left. *)
Definition after_call (s : CacheBoundedSemaphore.t) (op : sem_call)
  (c : store) : store :=
  match op with
  | CallAcquire units => fst (CacheBoundedSemaphore.acquire s units c)
  | CallAcquireAll => fst (CacheBoundedSemaphore.acquire_all s c)
  | CallRelease units => fst (CacheBoundedSemaphore.release s units c)
  | CallReleaseAll => fst (CacheBoundedSemaphore.release_all s c)
  end.

Definition after_calls (s : CacheBoundedSemaphore.t) (ops : list sem_call)
  (c : store) : store :=
  fold_left (fun c op => after_call s op c) ops c.

Definition nonneg_units (op : sem_call) : Prop :=
  match op with
  | CallAcquire units | CallRelease units => 0 <= units
  | CallAcquireAll | CallReleaseAll => True
  end.

(** ** More example inputs *)

(** A single-instance task tagged [Sync] whose work raises. *)
Definition failing_task : LoggedSingleTask.t :=
  LoggedSingleTask.__init__
    {| LoggedTask.TAG := "Sync";
       LoggedTask.run := fun _ => raise (OtherError "RuntimeError" "boom") |}.

(** A single-instance task tagged [SYNC] whose work returns [False]. *)
Definition false_task : LoggedSingleTask.t :=
  LoggedSingleTask.__init__
    {| LoggedTask.TAG := "SYNC";
       LoggedTask.run := fun _ => ret (PyBool false) |}.

Definition sync_registry : gmap string registered :=
  {[ "tasks.sync" := registered_single sync_task ]}.

Definition sync_body : gmap string string := {[ "id" := "id2" ]}.

(** * Properties *)

(** ** Stepping the cache operations *)

Lemma get_run (key : string) (d : Z) (c : store) :
  cache.get key d c = (c, Return (from_option id d (c !! key))).
Proof. reflexivity. Qed.

Lemma value_run (s : CacheSemaphore.t) (c : store) :
  CacheSemaphore.value s c = (c, Return (counter (CacheSemaphore._cache_key s) c)).
Proof. reflexivity. Qed.

Lemma counter_insert (key : string) (v : Z) (c : store) :
  counter key (<[key := v]> c) = v.
Proof. unfold counter. by rewrite lookup_insert_eq. Qed.

Lemma counter_absent (key : string) (c : store) :
  c !! key = None -> counter key c = 0.
Proof. unfold counter. by intros ->. Qed.

Lemma counter_positive_present (key : string) (c : store) :
  1 <= counter key c -> c !! key = Some (counter key c).
Proof.
  unfold counter. destruct (c !! key) as [v|]; simpl; [done | lia].
Qed.

Lemma incr_present (key : string) (delta v : Z) (c : store) :
  c !! key = Some v ->
  cache.incr key delta c = (<[key := v + delta]> c, Return (v + delta)).
Proof. unfold cache.incr. by intros ->. Qed.

Lemma incr_absent (key : string) (delta : Z) (c : store) :
  c !! key = None ->
  cache.incr key delta c
  = (c, Raise (ValueError ("Key '" ++ key ++ "' not found")%string)).
Proof. unfold cache.incr. by intros ->. Qed.

Lemma locked_run (l : CacheLock.t) (c : store) :
  CacheLock.locked l c
  = (c, Return (counter (CacheLock._cache_key l) c =? 1)).
Proof. reflexivity. Qed.

(** ** [CacheLock] *)

(** C1. A lock whose key is absent from the store is free: the first
    [acquire()] returns true and leaves the lock held, a second [acquire()]
    before any release returns false and leaves the store as it is, and after
    [release()] the store is back to the free state, where [acquire()]
    returns true again. *)
Theorem lock_acquire_release_cycle (l : CacheLock.t) (c : store) :
  c !! CacheLock._cache_key l = None ->
  let held := <[CacheLock._cache_key l := 1]> c in
  CacheLock.acquire l c = (held, Return true) /\
  CacheLock.locked l held = (held, Return true) /\
  CacheLock.acquire l held = (held, Return false) /\
  CacheLock.release l held = (c, Return tt) /\
  (CacheLock.release l >> CacheLock.acquire l) held = (held, Return true).
Proof.
  intros Hfree held.
  assert (Hacq : CacheLock.acquire l c = (held, Return true)).
  { unfold CacheLock.acquire, bind. rewrite locked_run, counter_absent by done.
    simpl. unfold cache.add. by rewrite Hfree. }
  assert (Hrel : CacheLock.release l held = (c, Return tt)).
  { unfold CacheLock.release, cache.delete, held.
    by rewrite delete_insert_id. }
  repeat split; try done.
  - rewrite locked_run. unfold held. by rewrite counter_insert.
  - unfold CacheLock.acquire, bind. rewrite locked_run.
    unfold held. by rewrite counter_insert.
  - unfold bind at 1. by rewrite Hrel.
Qed.

Lemma lock_acquire_release_cycle_witness :
  (∅ : store) !! CacheLock._cache_key sync_lock = None /\
  CacheLock.acquire sync_lock ∅ = ({[ "lock_sync" := 1 ]}, Return true) /\
  CacheLock.acquire sync_lock {[ "lock_sync" := 1 ]}
  = ({[ "lock_sync" := 1 ]}, Return false) /\
  (CacheLock.release sync_lock >> CacheLock.acquire sync_lock)
    {[ "lock_sync" := 1 ]}
  = ({[ "lock_sync" := 1 ]}, Return true).
Proof.
  assert (Hfree : (∅ : store) !! CacheLock._cache_key sync_lock = None)
    by reflexivity.
  split; [exact Hfree |].
  destruct (lock_acquire_release_cycle sync_lock ∅ Hfree)
    as (Hfirst & _ & Hsecond & _ & Hagain).
  exact (conj Hfirst (conj Hsecond Hagain)).
Defined.

(** ** [CacheSemaphore] *)

Lemma acquire_refused (s : CacheSemaphore.t) (units : Z) (c : store) :
  let cur := counter (CacheSemaphore._cache_key s) c in
  cur < 1 \/ cur < units ->
  CacheSemaphore.acquire s units c
  = (c, Raise (ValueError "Semaphore cannot be acquired")).
Proof.
  intros cur Hlow. unfold CacheSemaphore.acquire, bind.
  rewrite value_run. fold cur.
  destruct (Z.ltb_spec cur 1), (Z.ltb_spec cur units); simpl; try done; lia.
Qed.

Lemma acquire_granted (s : CacheSemaphore.t) (units : Z) (c : store) :
  let cur := counter (CacheSemaphore._cache_key s) c in
  1 <= cur -> units <= cur ->
  CacheSemaphore.acquire s units c
  = (<[CacheSemaphore._cache_key s := cur - units]> c, Return true).
Proof.
  intros cur Hone Hunits. unfold CacheSemaphore.acquire, bind.
  rewrite value_run. fold cur.
  destruct (Z.ltb_spec cur 1), (Z.ltb_spec cur units); simpl; try lia.
  unfold cache.decr.
  rewrite (incr_present _ _ cur) by by apply counter_positive_present.
  by replace (cur + - units) with (cur - units) by lia.
Qed.

(** C2. [acquire(units)] raises [ValueError] exactly when the counter read is
    below 1 or below [units], and then the store is unchanged; otherwise the
    counter is decremented by exactly [units] and [acquire] returns true. *)
Theorem semaphore_acquire_raises_iff_insufficient
  (s : CacheSemaphore.t) (units : Z) (c : store) :
  let k := CacheSemaphore._cache_key s in
  let cur := counter k c in
  CacheSemaphore.value s c = (c, Return cur) /\
  (is_raise (CacheSemaphore.acquire s units c) = true
   <-> cur < 1 \/ cur < units) /\
  CacheSemaphore.acquire s units c
  = (if (cur <? 1) || (cur <? units)
     then (c, Raise (ValueError "Semaphore cannot be acquired"))
     else (<[k := cur - units]> c, Return true)) /\
  ((cur <? 1) || (cur <? units) = false ->
   counter k (fst (CacheSemaphore.acquire s units c)) = cur - units).
Proof.
  intros k cur. split; [apply value_run |].
  destruct (Z.ltb_spec cur 1) as [Hone | Hone],
           (Z.ltb_spec cur units) as [Hunits | Hunits]; simpl.
  1-3: rewrite acquire_refused by (fold k cur; lia);
       simpl; repeat split; (done || lia).
  rewrite acquire_granted by done. fold k cur. simpl.
  repeat split; try done; try lia.
  intros _. apply counter_insert.
Qed.

(** C5, as the code has it.  [acquire_all()] reads the counter; when it is at
    least 1 it takes exactly that amount, leaves the counter at 0 and returns
    the amount taken; when it is below 1 (in particular 0, or the key absent)
    the inner [acquire] raises [ValueError] and the store is unchanged. *)
Theorem acquire_all_takes_all_or_raises (s : CacheSemaphore.t) (c : store) :
  let k := CacheSemaphore._cache_key s in
  let cur := counter k c in
  CacheSemaphore.acquire_all s c
  = (if cur <? 1
     then (c, Raise (ValueError "Semaphore cannot be acquired"))
     else (<[k := 0]> c, Return cur)).
Proof.
  intros k cur. unfold CacheSemaphore.acquire_all, bind at 1.
  rewrite value_run. fold k cur. unfold bind at 1.
  destruct (Z.ltb_spec cur 1) as [Hone | Hone].
  - by rewrite acquire_refused by (fold k cur; lia).
  - rewrite acquire_granted by (fold k cur; lia). fold k cur.
    by replace (cur - cur) with 0 by lia.
Qed.

(** C5, as stated, fails: on a semaphore whose counter is 0, [acquire_all()]
    raises [ValueError] instead of returning 0. *)
Lemma acquire_all_on_empty_raises :
  CacheSemaphore.value sem {[ "sem" := 0 ]} = ({[ "sem" := 0 ]}, Return 0) /\
  CacheSemaphore.acquire_all sem {[ "sem" := 0 ]}
  = ({[ "sem" := 0 ]}, Raise (ValueError "Semaphore cannot be acquired")) /\
  CacheSemaphore.acquire_all sem {[ "sem" := 0 ]}
  <> ({[ "sem" := 0 ]}, Return 0).
Proof.
  assert (Hrun : CacheSemaphore.acquire_all sem {[ "sem" := 0 ]}
                 = ({[ "sem" := 0 ]},
                    Raise (ValueError "Semaphore cannot be acquired")))
    by reflexivity.
  split; [reflexivity |]. split; [exact Hrun |].
  rewrite Hrun. intros Heq. by inversion Heq.
Qed.

Lemma init_run (k : string) (v : Z) (c : store) :
  CacheSemaphore.__init__ k v c
  = (if counter k c =? 0 then <[k := v]> c else c,
     Return {| CacheSemaphore._cache_key := k |}).
Proof.
  unfold CacheSemaphore.__init__, bind, cache.get, cache.set, ret, truthy.
  simpl. fold (counter k c). rewrite negb_involutive.
  by destruct (counter k c =? 0).
Qed.

(** C6, evaluated on the code.  Constructing a semaphore on a key that is
    present leaves a non-zero counter alone, but a counter that is present
    with value 0 is overwritten with the starting value, by the plain and by
    the bounded constructor alike. *)
Theorem semaphore_init_overwrites_zero_counter (k : string) (v : Z) (c : store) :
  CacheSemaphore.__init__ k v (<[k := 0]> c)
  = (<[k := v]> c, Return {| CacheSemaphore._cache_key := k |}) /\
  fst (CacheBoundedSemaphore.__init__ k v None (<[k := 0]> c)) = <[k := v]> c /\
  (forall n : Z, n <> 0 ->
     CacheSemaphore.__init__ k v (<[k := n]> c)
     = (<[k := n]> c, Return {| CacheSemaphore._cache_key := k |})).
Proof.
  split; [| split].
  - rewrite init_run, counter_insert. simpl. by rewrite insert_insert_eq.
  - unfold CacheBoundedSemaphore.__init__, bind.
    rewrite init_run, counter_insert. simpl.
    destruct (Z.gtb_spec v v); [lia |]. simpl. by rewrite insert_insert_eq.
  - intros n Hn. rewrite init_run, counter_insert.
    by destruct (Z.eqb_spec n 0).
Qed.

(** C9. Destroying a semaphore handle, plain or bounded, calls [delete()]:
    the counter key is removed from the store whatever its value was, no other
    key is touched, and every other handle on the same key reads 0 from then
    on. *)
Theorem semaphore_del_removes_counter
  (s : CacheSemaphore.t) (b : CacheBoundedSemaphore.t) (c : store) :
  CacheSemaphore.__del__ s c = CacheSemaphore.delete s c /\
  CacheSemaphore.__del__ s c
  = (delete (CacheSemaphore._cache_key s) c, Return tt) /\
  CacheBoundedSemaphore.__del__ b c
  = (delete (CacheBoundedSemaphore._cache_key b) c, Return tt) /\
  fst (CacheSemaphore.__del__ s c) !! CacheSemaphore._cache_key s = None /\
  fst (CacheBoundedSemaphore.__del__ b c) !! CacheBoundedSemaphore._cache_key b
  = None /\
  (forall k' : string, k' <> CacheSemaphore._cache_key s ->
     fst (CacheSemaphore.__del__ s c) !! k' = c !! k') /\
  (forall s' : CacheSemaphore.t,
     CacheSemaphore._cache_key s' = CacheSemaphore._cache_key s ->
     snd (CacheSemaphore.value s' (fst (CacheSemaphore.__del__ s c)))
     = Return 0).
Proof.
  repeat split; simpl.
  - apply lookup_delete_eq.
  - apply lookup_delete_eq.
  - intros k' Hk'. by apply lookup_delete_ne.
  - intros s' Hkey. rewrite Hkey. by rewrite lookup_delete_eq.
Qed.

(** ** [CacheBoundedSemaphore] *)

(** C10. Constructing a bounded semaphore with a starting value above the
    maximum raises [ValueError] only after the inherited initializer has run:
    when the key was absent, the failed construction has written the counter
    key with the starting value. *)
Theorem bounded_init_failure_writes_counter
  (k : string) (v mx : Z) (c : store) :
  v > mx ->
  c !! k = None ->
  CacheBoundedSemaphore.__init__ k v (Some mx) c
  = (<[k := v]> c,
     Raise (ValueError "Initial value cannot be greater than max value")) /\
  fst (CacheBoundedSemaphore.__init__ k v (Some mx) c) !! k = Some v /\
  fst (CacheBoundedSemaphore.__init__ k v (Some mx) c) <> c.
Proof.
  intros Hgt Habsent.
  assert (Hrun : CacheBoundedSemaphore.__init__ k v (Some mx) c
                 = (<[k := v]> c,
                    Raise (ValueError
                             "Initial value cannot be greater than max value"))).
  { unfold CacheBoundedSemaphore.__init__, bind.
    rewrite init_run, counter_absent by done. simpl.
    destruct (Z.gtb_spec v mx); [done | lia]. }
  rewrite Hrun. simpl. repeat split; [apply lookup_insert_eq |].
  intros Heq. rewrite <- Heq, lookup_insert_eq in Habsent. done.
Qed.

Lemma bounded_init_failure_writes_counter_witness :
  6 > 5 /\
  (∅ : store) !! "sem" = None /\
  CacheBoundedSemaphore.__init__ "sem" 6 (Some 5) ∅
  = ({[ "sem" := 6 ]},
     Raise (ValueError "Initial value cannot be greater than max value")).
Proof.
  assert (Hgt : 6 > 5) by lia.
  assert (Habsent : (∅ : store) !! "sem" = None) by reflexivity.
  split; [exact Hgt |]. split; [exact Habsent |].
  exact (proj1 (bounded_init_failure_writes_counter "sem" 6 5 ∅ Hgt Habsent)).
Defined.

Lemma bounded_release_run
  (s : CacheBoundedSemaphore.t) (units : Z) (c : store) :
  let k := CacheBoundedSemaphore._cache_key s in
  let mx := CacheBoundedSemaphore._max_value s in
  CacheBoundedSemaphore.release s units c
  = match c !! k with
    | Some v => (<[k := v + Z.min units (mx - v)]> c, Return tt)
    | None => (c, Raise (ValueError ("Key '" ++ k ++ "' not found")%string))
    end.
Proof.
  intros k mx. unfold CacheBoundedSemaphore.release, bind at 1.
  unfold CacheBoundedSemaphore.value. rewrite value_run.
  fold (CacheBoundedSemaphore._cache_key s). fold k mx. unfold bind, counter.
  destruct (c !! k) as [v|] eqn:Hk; simpl.
  - destruct (Z.gtb_spec units (mx - v)).
    + rewrite (incr_present _ _ v) by done. by rewrite Z.min_r by lia.
    + rewrite (incr_present _ _ v) by done. by rewrite Z.min_l by lia.
  - by rewrite incr_absent by done.
Qed.

Lemma bounded_release_all_run (s : CacheBoundedSemaphore.t) (c : store) :
  let k := CacheBoundedSemaphore._cache_key s in
  let mx := CacheBoundedSemaphore._max_value s in
  CacheBoundedSemaphore.release_all s c
  = match c !! k with
    | Some v => (<[k := mx]> c, Return tt)
    | None => (c, Raise (ValueError ("Key '" ++ k ++ "' not found")%string))
    end.
Proof.
  intros k mx. unfold CacheBoundedSemaphore.release_all, bind at 1.
  unfold CacheBoundedSemaphore.value. rewrite value_run.
  fold (CacheBoundedSemaphore._cache_key s). fold k mx.
  rewrite bounded_release_run. fold k mx. unfold counter.
  destruct (c !! k) as [v|]; simpl; [| done].
  rewrite Z.min_id. by replace (v + (mx - v)) with mx by lia.
Qed.

Lemma acquire_keeps_bounds
  (s : CacheBoundedSemaphore.t) (units : Z) (c : store) :
  bounded s c ->
  0 <= units ->
  bounded s (fst (CacheBoundedSemaphore.acquire s units c)).
Proof.
  unfold bounded, CacheBoundedSemaphore.acquire,
    CacheBoundedSemaphore._cache_key.
  intros Hb Hunits.
  set (k := CacheSemaphore._cache_key (CacheBoundedSemaphore.super s)) in *.
  destruct (decide (counter k c < 1 \/ counter k c < units)) as [Hlow | Hok].
  - by rewrite acquire_refused.
  - rewrite acquire_granted by (fold k; lia). fold k. simpl.
    rewrite counter_insert. lia.
Qed.

Lemma release_keeps_bounds
  (s : CacheBoundedSemaphore.t) (units : Z) (c : store) :
  bounded s c ->
  0 <= units ->
  bounded s (fst (CacheBoundedSemaphore.release s units c)).
Proof.
  unfold bounded. intros Hb Hunits. rewrite bounded_release_run.
  set (k := CacheBoundedSemaphore._cache_key s) in *.
  destruct (c !! k) as [v|] eqn:Hk; simpl; [| done].
  rewrite counter_insert.
  unfold counter in Hb. rewrite Hk in Hb. simpl in Hb. lia.
Qed.

Lemma release_all_keeps_bounds (s : CacheBoundedSemaphore.t) (c : store) :
  bounded s c ->
  bounded s (fst (CacheBoundedSemaphore.release_all s c)).
Proof.
  unfold bounded. intros Hb. rewrite bounded_release_all_run.
  set (k := CacheBoundedSemaphore._cache_key s) in *.
  destruct (c !! k) as [v|] eqn:Hk; simpl; [| done].
  rewrite counter_insert. lia.
Qed.

(** C3. A counter within [0, max] stays within [0, max] under [acquire(units)]
    and [release(units)] with [units >= 1] and under [release_all()], whether
    the call returns or raises.  On a counter that is present, [release] adds
    the requested amount clamped to the headroom [max - counter], never past
    [max], and [release_all] brings the counter to [max]. *)
Theorem bounded_semaphore_stays_within_bounds
  (s : CacheBoundedSemaphore.t) (units : Z) (c : store) :
  bounded s c ->
  1 <= units ->
  let k := CacheBoundedSemaphore._cache_key s in
  let mx := CacheBoundedSemaphore._max_value s in
  bounded s (fst (CacheBoundedSemaphore.acquire s units c)) /\
  bounded s (fst (CacheBoundedSemaphore.release s units c)) /\
  bounded s (fst (CacheBoundedSemaphore.release_all s c)) /\
  (forall v : Z, c !! k = Some v ->
     CacheBoundedSemaphore.release s units c
     = (<[k := v + Z.min units (mx - v)]> c, Return tt) /\
     v + Z.min units (mx - v) <= mx) /\
  (forall v : Z, c !! k = Some v ->
     CacheBoundedSemaphore.release_all s c = (<[k := mx]> c, Return tt)).
Proof.
  intros Hb Hunits k mx.
  split; [apply acquire_keeps_bounds; [done | lia] |].
  split; [apply release_keeps_bounds; [done | lia] |].
  split; [by apply release_all_keeps_bounds |].
  split.
  - intros v Hv. rewrite bounded_release_run. fold k mx. rewrite Hv.
    split; [done | lia].
  - intros v Hv. rewrite bounded_release_all_run. fold k mx. by rewrite Hv.
Qed.

Lemma bounded_semaphore_stays_within_bounds_witness :
  bounded sem_max5 {[ "sem" := 0 ]} /\
  1 <= 10 /\
  CacheBoundedSemaphore.release sem_max5 10 {[ "sem" := 0 ]}
  = ({[ "sem" := 5 ]}, Return tt).
Proof.
  assert (Hb : bounded sem_max5 {[ "sem" := 0 ]})
    by (change (0 <= 0 <= 5); lia).
  assert (Hunits : 1 <= 10) by lia.
  split; [exact Hb |]. split; [exact Hunits |].
  destruct (bounded_semaphore_stays_within_bounds
              sem_max5 10 {[ "sem" := 0 ]} Hb Hunits)
    as (_ & _ & _ & Hclamp & _).
  exact (proj1 (Hclamp 0 eq_refl)).
Defined.

(** The scenario of the spec: a bounded semaphore of capacity 5, created at 5
    and fully acquired, reads exactly 5 after [release(10)]. *)
Example bounded_clamp_scenario :
  (let* b := CacheBoundedSemaphore.__init__ "sem" 5 (Some 5) in
   CacheBoundedSemaphore.acquire b 5 >>
   CacheBoundedSemaphore.release b 10 >>
   CacheBoundedSemaphore.value b) ∅
  = ({[ "sem" := 5 ]}, Return 5).
Proof. reflexivity. Qed.

(** C8, as the code has it.  [full()] returns true exactly when the key is
    absent from the store or the stored counter is at least [max]; on a key
    that is present this is [value() >= max]. *)
Theorem bounded_full_iff_absent_or_at_max
  (s : CacheBoundedSemaphore.t) (c : store) :
  let k := CacheBoundedSemaphore._cache_key s in
  let mx := CacheBoundedSemaphore._max_value s in
  exists b : bool,
    CacheBoundedSemaphore.full s c = (c, Return b) /\
    CacheBoundedSemaphore.value s c = (c, Return (counter k c)) /\
    (b = true <-> c !! k = None \/ counter k c >= mx) /\
    (is_Some (c !! k) -> (b = true <-> counter k c >= mx)).
Proof.
  intros k mx. unfold CacheBoundedSemaphore.full, bind. rewrite get_run.
  fold k mx. eexists. split; [reflexivity |]. split; [reflexivity |].
  unfold counter. destruct (c !! k) as [v|]; simpl.
  - destruct (Z.geb_spec v mx) as [Hge | Hlt].
    + split; [split; [intros _; right; lia | done] |].
      intros _. split; [lia | done].
    + split; [split; [done | intros [Habs | Hge]; [done | lia]] |].
      intros _. split; [done | lia].
  - split; [split; [by left | intros _; apply Z.geb_le; lia] |].
    by intros [? ?].
Qed.

(** C8, as stated, fails on an absent key: with [max = 5] and no counter in
    the store, [value()] is 0 and yet [full()] returns true. *)
Lemma full_on_absent_key_is_true :
  (∅ : store) !! CacheBoundedSemaphore._cache_key sem_max5 = None /\
  CacheBoundedSemaphore.value sem_max5 ∅ = (∅, Return 0) /\
  CacheBoundedSemaphore.full sem_max5 ∅ = (∅, Return true) /\
  ~ (0 >= CacheBoundedSemaphore._max_value sem_max5).
Proof.
  split; [reflexivity |]. split; [reflexivity |]. split; [reflexivity |].
  simpl. lia.
Qed.

(** ** [LoggedSingleTask] *)

Section SingleTask.

Variable task : LoggedSingleTask.t.

Let k : string := CacheLock._cache_key (LoggedSingleTask.lock task).
Let tag : string := LoggedTask.TAG (LoggedSingleTask.super task).

Lemma lock_release_run (w : world) :
  LoggedSingleTask.lock_release task w
  = ({| w_cache := delete k (w_cache w);
        w_trace := w_trace w ++ [EvLockRelease k] |}, Return tt).
Proof. reflexivity. Qed.

Lemma lock_acquire_run (w : world) :
  LoggedSingleTask.lock_acquire task w
  = (let '(c, r) := CacheLock.acquire (LoggedSingleTask.lock task) (w_cache w) in
     ({| w_cache := c; w_trace := w_trace w ++ [EvLockAcquire k] |}, r)).
Proof. reflexivity. Qed.

Lemma release_count_app (tr tr' : list event) :
  release_count (tr ++ tr') = (release_count tr + release_count tr')%nat.
Proof. unfold release_count. by rewrite filter_app, length_app. Qed.

(** C4, evaluated on the code.  When the lock is held at invocation time,
    [__call__] returns [False] without running the wrapped work and without
    touching the store; but the invocation returned, so the success hook
    runs next, and it releases the lock this instance never acquired. *)
Theorem skipped_instance_releases_lock_it_did_not_acquire
  (task_id : string) (a : call_args) (c : store) (tr : list event) :
  let w := {| w_cache := <[k := 1]> c; w_trace := tr |} in
  CacheLock.locked (LoggedSingleTask.lock task) (w_cache w)
  = (w_cache w, Return true) /\
  LoggedSingleTask.__call__ task a w
  = ({| w_cache := <[k := 1]> c; w_trace := tr ++ [EvLockAcquire k] |},
     Return (PyBool false)) /\
  trace_task task task_id a w
  = ({| w_cache := delete k c;
        w_trace :=
          tr ++ [EvLockAcquire k; EvLockRelease k;
                 EvLog INFO "%s > Task (%s) completed with result: %s"
                   [tag; task_id; "False"] None;
                 EvTaskOnSuccess (PyBool false) task_id] |},
     Return (SUCCESS (PyBool false))) /\
  CacheLock.locked (LoggedSingleTask.lock task)
    (w_cache (fst (trace_task task task_id a w)))
  = (delete k c, Return false).
Proof.
  intros w.
  assert (Hheld : CacheLock.acquire (LoggedSingleTask.lock task) (<[k := 1]> c)
                  = (<[k := 1]> c, Return false)).
  { unfold CacheLock.acquire, bind. rewrite locked_run. fold k.
    by rewrite counter_insert. }
  assert (Hcall : LoggedSingleTask.__call__ task a w
                  = ({| w_cache := <[k := 1]> c;
                        w_trace := tr ++ [EvLockAcquire k] |},
                     Return (PyBool false))).
  { unfold LoggedSingleTask.__call__, bind at 1.
    rewrite lock_acquire_run. simpl. by rewrite Hheld. }
  assert (Htrace : trace_task task task_id a w
                   = ({| w_cache := delete k c;
                         w_trace :=
                           tr ++ [EvLockAcquire k; EvLockRelease k;
                                  EvLog INFO
                                    "%s > Task (%s) completed with result: %s"
                                    [tag; task_id; "False"] None;
                                  EvTaskOnSuccess (PyBool false) task_id] |},
                      Return (SUCCESS (PyBool false)))).
  { unfold trace_task. rewrite Hcall.
    unfold LoggedSingleTask.on_success, bind at 1 2.
    rewrite lock_release_run. simpl.
    rewrite delete_insert_eq. fold k tag.
    by rewrite <- !app_assoc. }
  split; [| split; [done | split; [done |]]].
  - rewrite locked_run. fold k. simpl. by rewrite counter_insert.
  - rewrite Htrace. simpl. rewrite locked_run. fold k.
    by rewrite counter_absent by apply lookup_delete_eq.
Qed.

(** C7, as the code has it.  When the instance finds its lock free and the
    wrapped work returns, [release] is invoked twice: by [__call__] right
    after the work returns, and by [on_success] before the generic success
    hook.  Afterwards the lock key is absent from the store. *)
Theorem successful_instance_releases_twice
  (task_id : string) (a : call_args) (w : world) (c' : store) (v : pyval) :
  CacheLock.locked (LoggedSingleTask.lock task) (w_cache w)
  = (w_cache w, Return false) ->
  LoggedTask.run (LoggedSingleTask.super task) a
    (fst (CacheLock.acquire (LoggedSingleTask.lock task) (w_cache w)))
  = (c', Return v) ->
  trace_task task task_id a w
  = ({| w_cache := delete k c';
        w_trace :=
          w_trace w ++
            [EvLockAcquire k;
             EvLog INFO "%s > Task started" [tag] None;
             EvRun a;
             EvLockRelease k;
             EvLockRelease k;
             EvLog INFO "%s > Task (%s) completed with result: %s"
               [tag; task_id; py_str v] None;
             EvTaskOnSuccess v task_id] |},
     Return (SUCCESS v)) /\
  release_count (w_trace (fst (trace_task task task_id a w)))
  = (release_count (w_trace w) + 2)%nat.
Proof.
  intros Hfree Hrun.
  assert (Hacq : snd (CacheLock.acquire (LoggedSingleTask.lock task) (w_cache w))
                 = Return true).
  { unfold CacheLock.acquire, bind. rewrite Hfree. simpl.
    unfold bind, cache.add. by destruct (w_cache w !! _). }
  assert (Htrace : trace_task task task_id a w
                   = ({| w_cache := delete k c';
                         w_trace :=
                           w_trace w ++
                             [EvLockAcquire k;
                              EvLog INFO "%s > Task started" [tag] None;
                              EvRun a;
                              EvLockRelease k;
                              EvLockRelease k;
                              EvLog INFO
                                "%s > Task (%s) completed with result: %s"
                                [tag; task_id; py_str v] None;
                              EvTaskOnSuccess v task_id] |},
                      Return (SUCCESS v))).
  { unfold trace_task, LoggedSingleTask.__call__, bind at 1.
    rewrite lock_acquire_run.
    destruct (CacheLock.acquire (LoggedSingleTask.lock task) (w_cache w))
      as [c1 r1] eqn:Hc1.
    simpl in Hacq, Hrun. subst r1.
    unfold LoggedTask.__call__, Task.__call__, traced, emit, on_cache, bind.
    simpl. rewrite Hrun.
    unfold LoggedSingleTask.on_success, LoggedSingleTask.lock_release,
      LoggedTask.on_success, Task.on_success, traced, emit, on_cache, bind,
      CacheLock.release, cache.delete, ret.
    simpl. fold k tag. rewrite delete_delete_eq.
    by rewrite <- !app_assoc. }
  split; [done |].
  rewrite Htrace. simpl. by rewrite release_count_app.
Qed.

End SingleTask.

Lemma successful_instance_releases_twice_witness :
  CacheLock.locked (LoggedSingleTask.lock sync_task) (w_cache fresh_world)
  = (w_cache fresh_world, Return false) /\
  LoggedTask.run (LoggedSingleTask.super sync_task) no_args
    (fst (CacheLock.acquire (LoggedSingleTask.lock sync_task)
            (w_cache fresh_world)))
  = ({[ "lock_sync" := 1 ]}, Return (PyInt 7)) /\
  release_count
    (w_trace (fst (trace_task sync_task "id1" no_args fresh_world)))
  = (release_count (w_trace fresh_world) + 2)%nat.
Proof.
  assert (Hfree : CacheLock.locked (LoggedSingleTask.lock sync_task)
                    (w_cache fresh_world)
                  = (w_cache fresh_world, Return false)) by reflexivity.
  assert (Hrun : LoggedTask.run (LoggedSingleTask.super sync_task) no_args
                   (fst (CacheLock.acquire (LoggedSingleTask.lock sync_task)
                           (w_cache fresh_world)))
                 = ({[ "lock_sync" := 1 ]}, Return (PyInt 7))) by reflexivity.
  split; [exact Hfree |]. split; [exact Hrun |].
  exact (proj2 (successful_instance_releases_twice
                  sync_task "id1" no_args fresh_world _ _ Hfree Hrun)).
Defined.

(** C7, as stated, fails: on a free lock, with work that returns 7, the
    instance succeeds and [release] has been invoked twice, not once. *)
Lemma sync_instance_release_count_is_two :
  snd (trace_task sync_task "id1" no_args fresh_world)
  = Return (SUCCESS (PyInt 7)) /\
  w_trace (fst (trace_task sync_task "id1" no_args fresh_world))
  = [EvLockAcquire "lock_sync";
     EvLog INFO "%s > Task started" ["Sync"] None;
     EvRun no_args;
     EvLockRelease "lock_sync";
     EvLockRelease "lock_sync";
     EvLog INFO "%s > Task (%s) completed with result: %s"
       ["Sync"; "id1"; "7"] None;
     EvTaskOnSuccess (PyInt 7) "id1"] /\
  release_count
    (w_trace (fst (trace_task sync_task "id1" no_args fresh_world)))
  <> 1%nat.
Proof.
  split; [reflexivity |]. split; [reflexivity |].
  vm_compute. discriminate.
Qed.

(** * Further properties *)

(** ** [CacheLock]: release, stale values, destruction *)

(** X1. [release()] is unconditional and idempotent: whatever the store holds,
    afterwards [locked()] is false and the next [acquire()] returns true; a
    second [release()] changes nothing, and on a lock that is already free
    [release()] leaves the store as it is. *)
Theorem lock_release_always_frees (l : CacheLock.t) (c : store) :
  let freed := fst (CacheLock.release l c) in
  CacheLock.locked l freed = (freed, Return false) /\
  snd (CacheLock.acquire l freed) = Return true /\
  CacheLock.release l freed = (freed, Return tt) /\
  (c !! CacheLock._cache_key l = None -> CacheLock.release l c = (c, Return tt)).
Proof.
  simpl. set (k := CacheLock._cache_key l).
  assert (Habsent : delete k c !! k = None) by apply lookup_delete_eq.
  split; [| split; [| split]].
  - rewrite locked_run. fold k. by rewrite counter_absent.
  - unfold CacheLock.acquire, bind. rewrite locked_run. fold k.
    rewrite counter_absent by done. simpl. unfold cache.add. fold k.
    by rewrite Habsent.
  - unfold CacheLock.release, cache.delete. fold k.
    by rewrite delete_id.
  - intros Hfree. unfold CacheLock.release, cache.delete. fold k.
    by rewrite delete_id.
Qed.

(** X2. A key that is present with a value other than 1 (a stale 0, say) reads
    as free, but [cache.add] does not overwrite it: [acquire()] returns true,
    the store is unchanged, the lock still reads free, and the next
    [acquire()] returns true as well. *)
Theorem lock_acquire_on_stale_value_does_not_hold
  (l : CacheLock.t) (c : store) (v : Z) :
  c !! CacheLock._cache_key l = Some v ->
  v <> 1 ->
  CacheLock.acquire l c = (c, Return true) /\
  CacheLock.locked l c = (c, Return false) /\
  (CacheLock.acquire l >> CacheLock.acquire l) c = (c, Return true).
Proof.
  intros Hk Hv.
  assert (Hlocked : CacheLock.locked l c = (c, Return false)).
  { rewrite locked_run. unfold counter. rewrite Hk. simpl.
    by destruct (Z.eqb_spec v 1). }
  assert (Hacq : CacheLock.acquire l c = (c, Return true)).
  { unfold CacheLock.acquire, bind. rewrite Hlocked. simpl.
    unfold cache.add. by rewrite Hk. }
  split; [done | split; [done |]].
  unfold bind at 1. by rewrite Hacq.
Qed.

Lemma lock_acquire_on_stale_value_does_not_hold_witness :
  ({[ "lock_sync" := 0 ]} : store) !! CacheLock._cache_key sync_lock = Some 0 /\
  0 <> 1 /\
  (CacheLock.acquire sync_lock >> CacheLock.acquire sync_lock)
    {[ "lock_sync" := 0 ]}
  = ({[ "lock_sync" := 0 ]}, Return true).
Proof.
  assert (Hk : ({[ "lock_sync" := 0 ]} : store) !! CacheLock._cache_key sync_lock
               = Some 0) by reflexivity.
  assert (Hv : 0 <> 1) by lia.
  split; [exact Hk |]. split; [exact Hv |].
  exact (proj2 (proj2 (lock_acquire_on_stale_value_does_not_hold
                         sync_lock {[ "lock_sync" := 0 ]} 0 Hk Hv))).
Defined.

Lemma lock_acquire_cases (l : CacheLock.t) (c : store) :
  CacheLock.acquire l c
  = match c !! CacheLock._cache_key l with
    | None => (<[CacheLock._cache_key l := 1]> c, Return true)
    | Some v => (c, Return (negb (v =? 1)))
    end.
Proof.
  unfold CacheLock.acquire, CacheLock.locked, bind, cache.get, cache.add, ret.
  destruct (c !! CacheLock._cache_key l) as [v|] eqn:Hk; simpl.
  - destruct (v =? 1); simpl; [done |]. by rewrite Hk.
  - by rewrite Hk.
Qed.

(** X3. After [acquire()] the lock reads held exactly when its key was absent
    or already held 1; [acquire()] returns false exactly when the key held 1;
    and no other key of the store is touched. *)
Theorem lock_held_after_acquire_iff (l : CacheLock.t) (c : store) :
  let k := CacheLock._cache_key l in
  let c' := fst (CacheLock.acquire l c) in
  (snd (CacheLock.locked l c') = Return true
   <-> c !! k = None \/ c !! k = Some 1) /\
  (snd (CacheLock.acquire l c) = Return false <-> c !! k = Some 1) /\
  (forall k' : string, k' <> k -> c' !! k' = c !! k').
Proof.
  intros k c'. subst c'. rewrite lock_acquire_cases. fold k.
  destruct (c !! k) as [v|] eqn:Hk; rewrite locked_run; fold k; cbn [fst snd].
  - unfold counter. rewrite Hk. simpl.
    destruct (Z.eqb_spec v 1) as [-> | Hne]; simpl.
    + split; [split; [by right | done] | done].
    + split; [split; [done | intros [? | ?]; congruence] |].
      split; [split; [done | congruence] | done].
  - rewrite counter_insert. simpl.
    split; [split; [by left | done] |].
    split; [done |]. intros k' Hk'. by rewrite lookup_insert_ne.
Qed.

(** X4. The lock has no owner: destroying any handle on the same key frees a
    lock that another handle acquired. *)
Theorem lock_del_of_other_handle_frees (l l' : CacheLock.t) (c : store) :
  CacheLock._cache_key l' = CacheLock._cache_key l ->
  c !! CacheLock._cache_key l = None ->
  (CacheLock.acquire l >> CacheLock.__del__ l' >> CacheLock.locked l) c
  = (c, Return false).
Proof.
  intros Hsame Hfree. unfold bind at 1.
  assert (Hacq : CacheLock.acquire l c
                 = (<[CacheLock._cache_key l := 1]> c, Return true)).
  { unfold CacheLock.acquire, bind. rewrite locked_run, counter_absent by done.
    simpl. unfold cache.add. by rewrite Hfree. }
  rewrite Hacq. unfold bind, CacheLock.__del__, CacheLock.release, cache.delete.
  rewrite Hsame, delete_insert_id by done.
  rewrite locked_run. by rewrite counter_absent.
Qed.

Lemma lock_del_of_other_handle_frees_witness :
  CacheLock._cache_key (CacheLock.__init__ "lock_sync" (Some 30))
  = CacheLock._cache_key sync_lock /\
  (∅ : store) !! CacheLock._cache_key sync_lock = None /\
  (CacheLock.acquire sync_lock >>
   CacheLock.__del__ (CacheLock.__init__ "lock_sync" (Some 30)) >>
   CacheLock.locked sync_lock) ∅
  = (∅, Return false).
Proof.
  assert (Hsame : CacheLock._cache_key (CacheLock.__init__ "lock_sync" (Some 30))
                  = CacheLock._cache_key sync_lock) by reflexivity.
  assert (Hfree : (∅ : store) !! CacheLock._cache_key sync_lock = None)
    by reflexivity.
  split; [exact Hsame |]. split; [exact Hfree |].
  exact (lock_del_of_other_handle_frees _ sync_lock ∅ Hsame Hfree).
Defined.

(** ** [CacheSemaphore]: round trips, deletion, signs of the units *)

Lemma acquire_all_run (s : CacheSemaphore.t) (c : store) :
  let k := CacheSemaphore._cache_key s in
  CacheSemaphore.acquire_all s c
  = (if counter k c <? 1
     then (c, Raise (ValueError "Semaphore cannot be acquired"))
     else (<[k := 0]> c, Return (counter k c))).
Proof.
  intros k. unfold CacheSemaphore.acquire_all, bind at 1.
  rewrite value_run. fold k. unfold bind at 1.
  destruct (Z.ltb_spec (counter k c) 1).
  - by rewrite acquire_refused by (fold k; lia).
  - rewrite acquire_granted by (fold k; lia). fold k.
    by replace (counter k c - counter k c) with 0 by lia.
Qed.

Lemma release_run (s : CacheSemaphore.t) (units : Z) (c : store) :
  let k := CacheSemaphore._cache_key s in
  CacheSemaphore.release s units c
  = match c !! k with
    | Some v => (<[k := v + units]> c, Return tt)
    | None => (c, Raise (ValueError ("Key '" ++ k ++ "' not found")%string))
    end.
Proof.
  intros k. unfold CacheSemaphore.release, bind, cache.incr. fold k.
  by destruct (c !! k).
Qed.

(** X5. Acquiring [units] from a counter that can grant them and releasing
    the same [units] gives back the store it started from. *)
Theorem semaphore_acquire_release_round_trip
  (s : CacheSemaphore.t) (units n : Z) (c : store) :
  c !! CacheSemaphore._cache_key s = Some n ->
  1 <= n ->
  units <= n ->
  (CacheSemaphore.acquire s units >> CacheSemaphore.release s units) c
  = (c, Return tt).
Proof.
  intros Hk Hone Hunits. set (k := CacheSemaphore._cache_key s) in *.
  assert (Hcur : counter k c = n) by (unfold counter; by rewrite Hk).
  unfold bind at 1. rewrite acquire_granted by (fold k; lia). fold k.
  rewrite release_run. fold k. rewrite lookup_insert_eq, insert_insert_eq.
  rewrite Hcur. replace (n - units + units) with n by lia.
  by rewrite insert_id.
Qed.

Lemma semaphore_acquire_release_round_trip_witness :
  ({[ "sem" := 5 ]} : store) !! CacheSemaphore._cache_key sem = Some 5 /\
  1 <= 5 /\
  3 <= 5 /\
  (CacheSemaphore.acquire sem 3 >> CacheSemaphore.release sem 3)
    {[ "sem" := 5 ]}
  = ({[ "sem" := 5 ]}, Return tt).
Proof.
  assert (Hk : ({[ "sem" := 5 ]} : store) !! CacheSemaphore._cache_key sem
               = Some 5) by reflexivity.
  assert (Hone : 1 <= 5) by lia.
  assert (Hunits : 3 <= 5) by lia.
  split; [exact Hk |]. split; [exact Hone |]. split; [exact Hunits |].
  exact (semaphore_acquire_release_round_trip
           sem 3 5 {[ "sem" := 5 ]} Hk Hone Hunits).
Defined.

(** X6. After [delete()] the semaphore reads 0 and locked, and every
    [acquire], [acquire_all] and [release] raises [ValueError] without writing
    to the store: nothing but a new construction brings the counter back. *)
Theorem deleted_semaphore_refuses_every_call
  (s : CacheSemaphore.t) (units : Z) (c : store) :
  let k := CacheSemaphore._cache_key s in
  let gone := fst (CacheSemaphore.delete s c) in
  CacheSemaphore.value s gone = (gone, Return 0) /\
  CacheSemaphore.locked s gone = (gone, Return true) /\
  CacheSemaphore.acquire s units gone
  = (gone, Raise (ValueError "Semaphore cannot be acquired")) /\
  CacheSemaphore.acquire_all s gone
  = (gone, Raise (ValueError "Semaphore cannot be acquired")) /\
  CacheSemaphore.release s units gone
  = (gone, Raise (ValueError ("Key '" ++ k ++ "' not found")%string)).
Proof.
  intros k gone.
  assert (Habsent : gone !! k = None) by apply lookup_delete_eq.
  assert (Hzero : counter k gone = 0) by by apply counter_absent.
  split; [| split; [| split; [| split]]].
  - rewrite value_run. fold k. by rewrite Hzero.
  - unfold CacheSemaphore.locked, bind. rewrite value_run. fold k.
    by rewrite Hzero.
  - apply acquire_refused. fold k. lia.
  - rewrite acquire_all_run. fold k. by rewrite Hzero.
  - rewrite release_run. fold k. by rewrite Habsent.
Qed.

(** X7. The counter never goes below zero through acquisition: from a
    non-negative counter, [acquire(units)] for any [units] whatever, and
    [acquire_all()], leave a non-negative counter. *)
Theorem semaphore_acquire_never_goes_negative
  (s : CacheSemaphore.t) (units : Z) (c : store) :
  let k := CacheSemaphore._cache_key s in
  0 <= counter k c ->
  0 <= counter k (fst (CacheSemaphore.acquire s units c)) /\
  0 <= counter k (fst (CacheSemaphore.acquire_all s c)).
Proof.
  intros k Hpos. split.
  - destruct (decide (counter k c < 1 \/ counter k c < units)) as [Hlow | Hok].
    + by rewrite acquire_refused.
    + rewrite acquire_granted by (fold k; lia). fold k. simpl.
      rewrite counter_insert. lia.
  - rewrite acquire_all_run. fold k.
    destruct (Z.ltb_spec (counter k c) 1); simpl; [done |].
    by rewrite counter_insert.
Qed.

Lemma semaphore_acquire_never_goes_negative_witness :
  0 <= counter (CacheSemaphore._cache_key sem) {[ "sem" := 2 ]} /\
  0 <= counter (CacheSemaphore._cache_key sem)
         (fst (CacheSemaphore.acquire sem 2 {[ "sem" := 2 ]})).
Proof.
  assert (Hpos : 0 <= counter (CacheSemaphore._cache_key sem) {[ "sem" := 2 ]})
    by (change (0 <= 2); lia).
  split; [exact Hpos |].
  exact (proj1 (semaphore_acquire_never_goes_negative
                  sem 2 {[ "sem" := 2 ]} Hpos)).
Defined.

(** X8. [acquire] does not check the sign of [units]: on a counter of at
    least 1, a request of zero or fewer units is granted and adds [- units]
    to the counter, so the counter does not decrease. *)
Theorem semaphore_acquire_nonpositive_units_adds
  (s : CacheSemaphore.t) (units : Z) (c : store) :
  let k := CacheSemaphore._cache_key s in
  1 <= counter k c ->
  units <= 0 ->
  CacheSemaphore.acquire s units c
  = (<[k := counter k c + - units]> c, Return true) /\
  counter k c <= counter k (fst (CacheSemaphore.acquire s units c)).
Proof.
  intros k Hone Hunits.
  rewrite acquire_granted by (fold k; lia). fold k. simpl.
  rewrite counter_insert.
  replace (counter k c + - units) with (counter k c - units) by lia.
  split; [done | lia].
Qed.

Lemma semaphore_acquire_nonpositive_units_adds_witness :
  1 <= counter (CacheSemaphore._cache_key sem) {[ "sem" := 5 ]} /\
  -3 <= 0 /\
  CacheSemaphore.acquire sem (-3) {[ "sem" := 5 ]}
  = ({[ "sem" := 8 ]}, Return true).
Proof.
  assert (Hone : 1 <= counter (CacheSemaphore._cache_key sem) {[ "sem" := 5 ]})
    by (change (1 <= 5); lia).
  assert (Hunits : -3 <= 0) by lia.
  split; [exact Hone |]. split; [exact Hunits |].
  exact (proj1 (semaphore_acquire_nonpositive_units_adds
                  sem (-3) {[ "sem" := 5 ]} Hone Hunits)).
Defined.

(** X9. [locked()] only reads the store, and it answers true exactly when
    [acquire(1)] would be refused, which is also exactly when [acquire_all()]
    would be refused. *)
Theorem semaphore_locked_iff_acquire_refused
  (s : CacheSemaphore.t) (c : store) :
  exists b : bool,
    CacheSemaphore.locked s c = (c, Return b) /\
    (b = true <-> is_raise (CacheSemaphore.acquire s 1 c) = true) /\
    (b = true <-> is_raise (CacheSemaphore.acquire_all s c) = true).
Proof.
  set (k := CacheSemaphore._cache_key s).
  exists (counter k c <? 1). split; [reflexivity |].
  rewrite acquire_all_run. fold k.
  destruct (Z.ltb_spec (counter k c) 1) as [Hlow | Hok].
  - rewrite acquire_refused by (fold k; lia). by simpl.
  - rewrite acquire_granted by (fold k; lia). by simpl.
Qed.

(** X10. On a counter of at least 1, [acquire_all()] returns the whole counter
    and leaves the semaphore locked; a second [acquire_all()] is refused, and
    releasing the amount returned gives back the original store. *)
Theorem semaphore_acquire_all_drains
  (s : CacheSemaphore.t) (c : store) :
  let k := CacheSemaphore._cache_key s in
  let n := counter k c in
  let drained := <[k := 0]> c in
  1 <= n ->
  CacheSemaphore.acquire_all s c = (drained, Return n) /\
  CacheSemaphore.locked s drained = (drained, Return true) /\
  CacheSemaphore.acquire_all s drained
  = (drained, Raise (ValueError "Semaphore cannot be acquired")) /\
  CacheSemaphore.release s n drained = (c, Return tt).
Proof.
  intros k n drained Hone.
  assert (Hzero : counter k drained = 0) by apply counter_insert.
  split; [| split; [| split]].
  - rewrite acquire_all_run. fold k n.
    by destruct (Z.ltb_spec n 1); [lia |].
  - unfold CacheSemaphore.locked, bind. rewrite value_run. fold k.
    by rewrite Hzero.
  - rewrite acquire_all_run. fold k. by rewrite Hzero.
  - rewrite release_run. fold k. unfold drained.
    rewrite lookup_insert_eq, insert_insert_eq. simpl.
    apply counter_positive_present in Hone. by rewrite insert_id.
Qed.

Lemma semaphore_acquire_all_drains_witness :
  1 <= counter (CacheSemaphore._cache_key sem) {[ "sem" := 4 ]} /\
  CacheSemaphore.acquire_all sem {[ "sem" := 4 ]}
  = ({[ "sem" := 0 ]}, Return 4) /\
  CacheSemaphore.release sem 4 {[ "sem" := 0 ]} = ({[ "sem" := 4 ]}, Return tt).
Proof.
  assert (Hone : 1 <= counter (CacheSemaphore._cache_key sem) {[ "sem" := 4 ]})
    by (change (1 <= 4); lia).
  split; [exact Hone |].
  destruct (semaphore_acquire_all_drains sem {[ "sem" := 4 ]} Hone)
    as (Hall & _ & _ & Hback).
  exact (conj Hall Hback).
Defined.

(** ** [CacheBoundedSemaphore]: construction, sequences of calls, release *)

Lemma acquire_all_keeps_bounds (s : CacheBoundedSemaphore.t) (c : store) :
  bounded s c ->
  bounded s (fst (CacheBoundedSemaphore.acquire_all s c)).
Proof.
  unfold bounded, CacheBoundedSemaphore.acquire_all,
    CacheBoundedSemaphore._cache_key.
  intros Hb. rewrite acquire_all_run.
  set (k := CacheSemaphore._cache_key (CacheBoundedSemaphore.super s)) in *.
  destruct (Z.ltb_spec (counter k c) 1); simpl; [done |].
  rewrite counter_insert. lia.
Qed.

Lemma after_call_keeps_bounds
  (s : CacheBoundedSemaphore.t) (op : sem_call) (c : store) :
  bounded s c ->
  nonneg_units op ->
  bounded s (after_call s op c).
Proof.
  intros Hb Hop. destruct op as [units | | units |]; simpl in *.
  - by apply acquire_keeps_bounds.
  - by apply acquire_all_keeps_bounds.
  - by apply release_keeps_bounds.
  - by apply release_all_keeps_bounds.
Qed.

(** X11. A counter within [0, max] stays within [0, max] along every sequence
    of [acquire], [acquire_all], [release] and [release_all] calls whose units
    are not negative, refused calls included. *)
Theorem bounded_semaphore_invariant_over_calls
  (s : CacheBoundedSemaphore.t) (ops : list sem_call) (c : store) :
  bounded s c ->
  Forall nonneg_units ops ->
  bounded s (after_calls s ops c).
Proof.
  intros Hb Hops. revert c Hb.
  induction Hops as [| op ops Hop _ IH]; intros c Hb; [done |].
  simpl. apply IH. by apply after_call_keeps_bounds.
Qed.

Lemma bounded_semaphore_invariant_over_calls_witness :
  bounded sem_max5 {[ "sem" := 5 ]} /\
  Forall nonneg_units
    [CallAcquire 3; CallRelease 10; CallAcquireAll; CallAcquire 1;
     CallReleaseAll] /\
  bounded sem_max5
    (after_calls sem_max5
       [CallAcquire 3; CallRelease 10; CallAcquireAll; CallAcquire 1;
        CallReleaseAll]
       {[ "sem" := 5 ]}).
Proof.
  assert (Hb : bounded sem_max5 {[ "sem" := 5 ]})
    by (change (0 <= 5 <= 5); lia).
  assert (Hops : Forall nonneg_units
                   [CallAcquire 3; CallRelease 10; CallAcquireAll;
                    CallAcquire 1; CallReleaseAll])
    by (repeat constructor; simpl; lia).
  split; [exact Hb |]. split; [exact Hops |].
  exact (bounded_semaphore_invariant_over_calls sem_max5 _ _ Hb Hops).
Defined.

Lemma bounded_init_run (k : string) (v : Z) (mx : option Z) (c : store) :
  CacheBoundedSemaphore.__init__ k v mx c
  = (let c' := if counter k c =? 0 then <[k := v]> c else c in
     if v >? from_option id v mx
     then (c', Raise (ValueError
                        "Initial value cannot be greater than max value"))
     else (c', Return {| CacheBoundedSemaphore.super :=
                           {| CacheSemaphore._cache_key := k |};
                         CacheBoundedSemaphore._max_value :=
                           from_option id v mx |})).
Proof.
  unfold CacheBoundedSemaphore.__init__, bind. rewrite init_run. simpl.
  by destruct (v >? from_option id v mx).
Qed.

(** X12. Constructing a bounded semaphore raises exactly when a maximum is
    given and the starting value exceeds it; without a maximum it never
    raises.  When it returns, the handle has the given key, its maximum is the
    given one or else the starting value, and on a key that was absent the
    counter reads the starting value, within bounds when that is not
    negative. *)
Theorem bounded_init_raises_iff_above_max
  (k : string) (v : Z) (mx : option Z) (c : store) :
  (is_raise (CacheBoundedSemaphore.__init__ k v mx c) = true
   <-> exists m : Z, mx = Some m /\ v > m) /\
  (forall (b : CacheBoundedSemaphore.t) (c' : store),
     CacheBoundedSemaphore.__init__ k v mx c = (c', Return b) ->
     CacheBoundedSemaphore._cache_key b = k /\
     CacheBoundedSemaphore._max_value b = from_option id v mx /\
     v <= CacheBoundedSemaphore._max_value b /\
     (c !! k = None -> counter k c' = v /\ (0 <= v -> bounded b c'))).
Proof.
  rewrite bounded_init_run. cbv zeta.
  destruct (Z.gtb_spec v (from_option id v mx)) as [Hgt | Hle]; simpl.
  - split.
    + split; [intros _ | done].
      destruct mx as [m|]; simpl in Hgt; [| lia]. exists m. split; [done | lia].
    + intros b c' Heq. by inversion Heq.
  - split.
    + split; [done |]. intros (m & -> & Hm). simpl in Hle. lia.
    + intros b c' Heq. inversion Heq; subst. simpl.
      split; [reflexivity |]. split; [reflexivity |]. split; [exact Hle |].
      intros Habsent. rewrite (counter_absent k c) by done. simpl.
      rewrite counter_insert. split; [done |].
      intros Hpos. unfold bounded. simpl.
      unfold CacheBoundedSemaphore._cache_key. simpl.
      rewrite counter_insert. lia.
Qed.

(** X13. Construction does not look at a counter that is already there: over
    an existing non-zero counter above the new handle's maximum, it returns
    with the store unchanged, so the handle starts out of bounds and reads
    full. *)
Theorem bounded_init_over_larger_counter_is_out_of_bounds
  (k : string) (v mx n : Z) (c : store) :
  c !! k = Some n ->
  n <> 0 ->
  v <= mx ->
  mx < n ->
  exists b : CacheBoundedSemaphore.t,
    CacheBoundedSemaphore.__init__ k v (Some mx) c = (c, Return b) /\
    CacheBoundedSemaphore.value b c = (c, Return n) /\
    CacheBoundedSemaphore.full b c = (c, Return true) /\
    ~ bounded b c.
Proof.
  intros Hk Hnz Hv Hn.
  assert (Hcur : counter k c = n) by (unfold counter; by rewrite Hk).
  rewrite bounded_init_run. cbv zeta. rewrite Hcur. simpl.
  destruct (Z.eqb_spec n 0) as [Hz | _]; [done |].
  - destruct (Z.gtb_spec v mx); [lia |].
    eexists. split; [reflexivity |].
    split; [| split].
    + unfold CacheBoundedSemaphore.value. simpl. rewrite value_run. simpl.
      by rewrite Hcur.
    + unfold CacheBoundedSemaphore.full, bind. rewrite get_run.
      unfold CacheBoundedSemaphore._cache_key. simpl. rewrite Hk. simpl.
      by destruct (Z.geb_spec n mx); [| lia].
    + unfold bounded, CacheBoundedSemaphore._cache_key. simpl.
      rewrite Hcur. lia.
Qed.

Lemma bounded_init_over_larger_counter_is_out_of_bounds_witness :
  ({[ "sem" := 10 ]} : store) !! "sem" = Some 10 /\
  10 <> 0 /\
  1 <= 5 /\
  5 < 10 /\
  exists b : CacheBoundedSemaphore.t,
    CacheBoundedSemaphore.__init__ "sem" 1 (Some 5) {[ "sem" := 10 ]}
    = ({[ "sem" := 10 ]}, Return b) /\
    CacheBoundedSemaphore.value b {[ "sem" := 10 ]}
    = ({[ "sem" := 10 ]}, Return 10) /\
    CacheBoundedSemaphore.full b {[ "sem" := 10 ]}
    = ({[ "sem" := 10 ]}, Return true) /\
    ~ bounded b {[ "sem" := 10 ]}.
Proof.
  assert (Hk : ({[ "sem" := 10 ]} : store) !! "sem" = Some 10) by reflexivity.
  assert (Hnz : 10 <> 0) by lia.
  assert (Hv : 1 <= 5) by lia.
  assert (Hn : 5 < 10) by lia.
  split; [exact Hk |]. split; [exact Hnz |].
  split; [exact Hv |]. split; [exact Hn |].
  exact (bounded_init_over_larger_counter_is_out_of_bounds
           "sem" 1 5 10 {[ "sem" := 10 ]} Hk Hnz Hv Hn).
Defined.

(** X14. On a counter above the maximum, [release] with units that are not
    negative lowers the counter to exactly the maximum: the clamp to the
    (negative) headroom turns the release into a decrement. *)
Theorem bounded_release_above_max_lowers_to_max
  (s : CacheBoundedSemaphore.t) (units v : Z) (c : store) :
  let k := CacheBoundedSemaphore._cache_key s in
  let mx := CacheBoundedSemaphore._max_value s in
  c !! k = Some v ->
  mx < v ->
  0 <= units ->
  CacheBoundedSemaphore.release s units c = (<[k := mx]> c, Return tt) /\
  counter k (fst (CacheBoundedSemaphore.release s units c)) < counter k c.
Proof.
  intros k mx Hk Hv Hunits.
  rewrite bounded_release_run. fold k mx. rewrite Hk.
  rewrite Z.min_r by lia. replace (v + (mx - v)) with mx by lia.
  split; [done |]. simpl. rewrite counter_insert.
  unfold counter. rewrite Hk. simpl. lia.
Qed.

Lemma bounded_release_above_max_lowers_to_max_witness :
  ({[ "sem" := 10 ]} : store) !! CacheBoundedSemaphore._cache_key sem_max5
  = Some 10 /\
  CacheBoundedSemaphore._max_value sem_max5 < 10 /\
  0 <= 1 /\
  CacheBoundedSemaphore.release sem_max5 1 {[ "sem" := 10 ]}
  = ({[ "sem" := 5 ]}, Return tt).
Proof.
  assert (Hk : ({[ "sem" := 10 ]} : store)
                 !! CacheBoundedSemaphore._cache_key sem_max5 = Some 10)
    by reflexivity.
  assert (Hv : CacheBoundedSemaphore._max_value sem_max5 < 10)
    by (change (5 < 10); lia).
  assert (Hunits : 0 <= 1) by lia.
  split; [exact Hk |]. split; [exact Hv |]. split; [exact Hunits |].
  exact (proj1 (bounded_release_above_max_lowers_to_max
                  sem_max5 1 10 {[ "sem" := 10 ]} Hk Hv Hunits)).
Defined.

(** X15. On a counter that is present, [release_all()] sets it to exactly the
    maximum; right after it [full()] returns true, and a second
    [release_all()] changes nothing. *)
Theorem bounded_release_all_fills
  (s : CacheBoundedSemaphore.t) (v : Z) (c : store) :
  let k := CacheBoundedSemaphore._cache_key s in
  let mx := CacheBoundedSemaphore._max_value s in
  c !! k = Some v ->
  (CacheBoundedSemaphore.release_all s >> CacheBoundedSemaphore.full s) c
  = (<[k := mx]> c, Return true) /\
  CacheBoundedSemaphore.value s (<[k := mx]> c) = (<[k := mx]> c, Return mx) /\
  CacheBoundedSemaphore.release_all s (<[k := mx]> c)
  = (<[k := mx]> c, Return tt).
Proof.
  intros k mx Hk. split; [| split].
  - unfold bind at 1. rewrite bounded_release_all_run. fold k mx. rewrite Hk.
    unfold CacheBoundedSemaphore.full, bind. rewrite get_run. fold k mx.
    rewrite lookup_insert_eq. simpl.
    by destruct (Z.geb_spec mx mx); [| lia].
  - unfold CacheBoundedSemaphore.value. rewrite value_run.
    fold (CacheBoundedSemaphore._cache_key s). fold k.
    by rewrite counter_insert.
  - rewrite bounded_release_all_run. fold k mx.
    by rewrite lookup_insert_eq, insert_insert_eq.
Qed.

Lemma bounded_release_all_fills_witness :
  ({[ "sem" := 2 ]} : store) !! CacheBoundedSemaphore._cache_key sem_max5
  = Some 2 /\
  (CacheBoundedSemaphore.release_all sem_max5 >>
   CacheBoundedSemaphore.full sem_max5) {[ "sem" := 2 ]}
  = ({[ "sem" := 5 ]}, Return true).
Proof.
  assert (Hk : ({[ "sem" := 2 ]} : store)
                 !! CacheBoundedSemaphore._cache_key sem_max5 = Some 2)
    by reflexivity.
  split; [exact Hk |].
  exact (proj1 (bounded_release_all_fills sem_max5 2 {[ "sem" := 2 ]} Hk)).
Defined.

(** X16. [release] does not check the sign of [units]: from a counter within
    bounds, releasing fewer than [- counter] units writes a negative counter,
    so the bound is lost. *)
Theorem bounded_release_negative_units_breaks_bound
  (s : CacheBoundedSemaphore.t) (units v : Z) (c : store) :
  let k := CacheBoundedSemaphore._cache_key s in
  c !! k = Some v ->
  bounded s c ->
  units < - v ->
  CacheBoundedSemaphore.release s units c = (<[k := v + units]> c, Return tt) /\
  counter k (fst (CacheBoundedSemaphore.release s units c)) < 0 /\
  ~ bounded s (fst (CacheBoundedSemaphore.release s units c)).
Proof.
  intros k Hk Hb Hunits.
  assert (Hcur : counter k c = v) by (unfold counter; by rewrite Hk).
  unfold bounded in Hb. fold k in Hb. rewrite Hcur in Hb.
  rewrite bounded_release_run. fold k. rewrite Hk.
  rewrite Z.min_l by lia. simpl.
  split; [done |]. unfold bounded. fold k. rewrite counter_insert.
  split; lia.
Qed.

Lemma bounded_release_negative_units_breaks_bound_witness :
  ({[ "sem" := 1 ]} : store) !! CacheBoundedSemaphore._cache_key sem_max5
  = Some 1 /\
  bounded sem_max5 {[ "sem" := 1 ]} /\
  -3 < - 1 /\
  CacheBoundedSemaphore.release sem_max5 (-3) {[ "sem" := 1 ]}
  = ({[ "sem" := -2 ]}, Return tt).
Proof.
  assert (Hk : ({[ "sem" := 1 ]} : store)
                 !! CacheBoundedSemaphore._cache_key sem_max5 = Some 1)
    by reflexivity.
  assert (Hb : bounded sem_max5 {[ "sem" := 1 ]})
    by (change (0 <= 1 <= 5); lia).
  assert (Hunits : -3 < - 1) by lia.
  split; [exact Hk |]. split; [exact Hb |]. split; [exact Hunits |].
  exact (proj1 (bounded_release_negative_units_breaks_bound
                  sem_max5 (-3) 1 {[ "sem" := 1 ]} Hk Hb Hunits)).
Defined.

(** ** [LoggedSingleTask]: failure, the lock at the end of an instance *)

Lemma single_on_success_run
  (t : LoggedSingleTask.t) (v : pyval) (task_id : string) (a : call_args)
  (w : world) :
  let k := CacheLock._cache_key (LoggedSingleTask.lock t) in
  let tag := LoggedTask.TAG (LoggedSingleTask.super t) in
  LoggedSingleTask.on_success t v task_id a w
  = ({| w_cache := delete k (w_cache w);
        w_trace :=
          w_trace w ++
            [EvLockRelease k;
             EvLog INFO "%s > Task (%s) completed with result: %s"
               [tag; task_id; py_str v] None;
             EvTaskOnSuccess v task_id] |}, Return tt).
Proof.
  unfold LoggedSingleTask.on_success, LoggedSingleTask.lock_release,
    LoggedTask.on_success, Task.on_success, traced, emit, on_cache, bind,
    CacheLock.release, cache.delete.
  simpl. by rewrite <- !app_assoc.
Qed.

Lemma single_on_failure_run
  (t : LoggedSingleTask.t) (e : exn) (task_id : string) (a : call_args)
  (w : world) :
  let k := CacheLock._cache_key (LoggedSingleTask.lock t) in
  let tag := LoggedTask.TAG (LoggedSingleTask.super t) in
  LoggedSingleTask.on_failure t e task_id a w
  = ({| w_cache := delete k (w_cache w);
        w_trace :=
          w_trace w ++
            [EvLockRelease k;
             EvLog ERROR "%s > Task (%s) failed" [tag; task_id] (Some e);
             EvTaskOnFailure e task_id] |}, Return tt).
Proof.
  unfold LoggedSingleTask.on_failure, LoggedSingleTask.lock_release,
    LoggedTask.on_failure, Task.on_failure, traced, emit, on_cache, bind,
    CacheLock.release, cache.delete.
  simpl. by rewrite <- !app_assoc.
Qed.

Lemma single_call_cases
  (t : LoggedSingleTask.t) (a : call_args) (w : world) :
  let k := CacheLock._cache_key (LoggedSingleTask.lock t) in
  let tag := LoggedTask.TAG (LoggedSingleTask.super t) in
  LoggedSingleTask.__call__ t a w
  = (if counter k (w_cache w) =? 1
     then ({| w_cache := w_cache w;
              w_trace := w_trace w ++ [EvLockAcquire k] |},
           Return (PyBool false))
     else
       match LoggedTask.run (LoggedSingleTask.super t) a
               (fst (CacheLock.acquire (LoggedSingleTask.lock t) (w_cache w)))
       with
       | (c', Return v) =>
           ({| w_cache := delete k c';
               w_trace :=
                 w_trace w ++
                   [EvLockAcquire k;
                    EvLog INFO "%s > Task started" [tag] None;
                    EvRun a;
                    EvLockRelease k] |}, Return v)
       | (c', Raise e) =>
           ({| w_cache := c';
               w_trace :=
                 w_trace w ++
                   [EvLockAcquire k;
                    EvLog INFO "%s > Task started" [tag] None;
                    EvRun a] |}, Raise e)
       end).
Proof.
  intros k tag.
  unfold LoggedSingleTask.__call__, LoggedSingleTask.lock_acquire,
    LoggedSingleTask.lock_release, LoggedTask.__call__, Task.__call__,
    traced, emit, on_cache, bind. simpl.
  rewrite lock_acquire_cases. fold k. unfold counter.
  destruct (w_cache w !! k) as [v0|] eqn:Hk; simpl.
  - destruct (v0 =? 1); simpl; [done |].
    destruct (LoggedTask.run _ a (w_cache w)) as [c' [v | e]]; simpl;
      fold tag; by rewrite <- !app_assoc.
  - destruct (LoggedTask.run _ a (<[k := 1]> (w_cache w))) as [c' [v | e]];
      simpl; fold tag; by rewrite <- !app_assoc.
Qed.

(** X17. When the instance finds its lock free and the wrapped work raises,
    [__call__] lets the exception through without releasing; the failure hook
    then releases the lock, once, before the error is logged and the generic
    failure hook runs.  Afterwards the lock key is absent from the store. *)
Theorem failed_instance_releases_once
  (t : LoggedSingleTask.t) (task_id : string) (a : call_args) (w : world)
  (c' : store) (e : exn) :
  let k := CacheLock._cache_key (LoggedSingleTask.lock t) in
  let tag := LoggedTask.TAG (LoggedSingleTask.super t) in
  CacheLock.locked (LoggedSingleTask.lock t) (w_cache w)
  = (w_cache w, Return false) ->
  LoggedTask.run (LoggedSingleTask.super t) a
    (fst (CacheLock.acquire (LoggedSingleTask.lock t) (w_cache w)))
  = (c', Raise e) ->
  snd (LoggedSingleTask.__call__ t a w) = Raise e /\
  trace_task t task_id a w
  = ({| w_cache := delete k c';
        w_trace :=
          w_trace w ++
            [EvLockAcquire k;
             EvLog INFO "%s > Task started" [tag] None;
             EvRun a;
             EvLockRelease k;
             EvLog ERROR "%s > Task (%s) failed" [tag; task_id] (Some e);
             EvTaskOnFailure e task_id] |},
     Return (FAILURE e)) /\
  release_count (w_trace (fst (trace_task t task_id a w)))
  = (release_count (w_trace w) + 1)%nat.
Proof.
  intros k tag Hfree Hrun.
  assert (Hne : (counter k (w_cache w) =? 1) = false).
  { rewrite locked_run in Hfree. fold k in Hfree. by inversion Hfree. }
  assert (Hcall : LoggedSingleTask.__call__ t a w
                  = ({| w_cache := c';
                        w_trace :=
                          w_trace w ++
                            [EvLockAcquire k;
                             EvLog INFO "%s > Task started" [tag] None;
                             EvRun a] |}, Raise e)).
  { rewrite single_call_cases. fold k tag. by rewrite Hne, Hrun. }
  assert (Htrace : trace_task t task_id a w
                   = ({| w_cache := delete k c';
                         w_trace :=
                           w_trace w ++
                             [EvLockAcquire k;
                              EvLog INFO "%s > Task started" [tag] None;
                              EvRun a;
                              EvLockRelease k;
                              EvLog ERROR "%s > Task (%s) failed"
                                [tag; task_id] (Some e);
                              EvTaskOnFailure e task_id] |},
                      Return (FAILURE e))).
  { unfold trace_task. rewrite Hcall. unfold bind.
    rewrite single_on_failure_run. fold k tag. simpl.
    by rewrite <- !app_assoc. }
  split; [by rewrite Hcall |]. split; [done |].
  rewrite Htrace. simpl.
  unfold release_count. by rewrite filter_app, length_app.
Qed.

Lemma failed_instance_releases_once_witness :
  CacheLock.locked (LoggedSingleTask.lock failing_task) (w_cache fresh_world)
  = (w_cache fresh_world, Return false) /\
  LoggedTask.run (LoggedSingleTask.super failing_task) no_args
    (fst (CacheLock.acquire (LoggedSingleTask.lock failing_task)
            (w_cache fresh_world)))
  = ({[ "lock_sync" := 1 ]}, Raise (OtherError "RuntimeError" "boom")) /\
  release_count
    (w_trace (fst (trace_task failing_task "id1" no_args fresh_world)))
  = (release_count (w_trace fresh_world) + 1)%nat.
Proof.
  assert (Hfree : CacheLock.locked (LoggedSingleTask.lock failing_task)
                    (w_cache fresh_world)
                  = (w_cache fresh_world, Return false)) by reflexivity.
  assert (Hrun : LoggedTask.run (LoggedSingleTask.super failing_task) no_args
                   (fst (CacheLock.acquire (LoggedSingleTask.lock failing_task)
                           (w_cache fresh_world)))
                 = ({[ "lock_sync" := 1 ]},
                    Raise (OtherError "RuntimeError" "boom")))
    by reflexivity.
  split; [exact Hfree |]. split; [exact Hrun |].
  exact (proj2 (proj2 (failed_instance_releases_once
                         failing_task "id1" no_args fresh_world _ _
                         Hfree Hrun))).
Defined.

Lemma trace_task_frees_lock
  (t : LoggedSingleTask.t) (task_id : string) (a : call_args) (w : world) :
  w_cache (fst (trace_task t task_id a w))
    !! CacheLock._cache_key (LoggedSingleTask.lock t) = None.
Proof.
  unfold trace_task.
  destruct (LoggedSingleTask.__call__ t a w) as [w' [v | e]]; unfold bind.
  - rewrite single_on_success_run. simpl. apply lookup_delete_eq.
  - rewrite single_on_failure_run. simpl. apply lookup_delete_eq.
Qed.

(** X18. Whatever the store, the work and the outcome (the work returned, it
    raised, or the instance was skipped), the life of an instance ends with
    the lock key absent from the store: the lock reads free and the next
    [acquire()] succeeds.  The hooks themselves never raise, and the instance
    is reported as a success exactly when [__call__] returned. *)
Theorem instance_always_ends_with_lock_free
  (t : LoggedSingleTask.t) (task_id : string) (a : call_args) (w : world) :
  let final := w_cache (fst (trace_task t task_id a w)) in
  final !! CacheLock._cache_key (LoggedSingleTask.lock t) = None /\
  CacheLock.locked (LoggedSingleTask.lock t) final = (final, Return false) /\
  snd (CacheLock.acquire (LoggedSingleTask.lock t) final) = Return true /\
  (forall v : pyval,
     snd (LoggedSingleTask.__call__ t a w) = Return v ->
     snd (trace_task t task_id a w) = Return (SUCCESS v)) /\
  (forall e : exn,
     snd (LoggedSingleTask.__call__ t a w) = Raise e ->
     snd (trace_task t task_id a w) = Return (FAILURE e)).
Proof.
  intros final.
  assert (Hfree : final !! CacheLock._cache_key (LoggedSingleTask.lock t) = None)
    by apply trace_task_frees_lock.
  split; [done |]. split; [| split; [| split]].
  - rewrite locked_run. by rewrite counter_absent.
  - rewrite lock_acquire_cases. by rewrite Hfree.
  - intros v Hv. unfold trace_task.
    destruct (LoggedSingleTask.__call__ t a w) as [w' [v' | e']];
      simpl in Hv; [| done].
    inversion Hv; subst. unfold bind. by rewrite single_on_success_run.
  - intros e He. unfold trace_task.
    destruct (LoggedSingleTask.__call__ t a w) as [w' [v' | e']];
      simpl in He; [done |].
    inversion He; subst. unfold bind. by rewrite single_on_failure_run.
Qed.

(** X19. The skipped outcome is the value [False], which the work may return
    too: when the work returns [False] on a free lock, [__call__] returns the
    same value as it does when the lock is held, and both instances are
    reported as successes with result [False]. *)
Theorem skipped_outcome_not_distinct_from_false_result
  (t : LoggedSingleTask.t) (task_id : string) (a : call_args) (w : world)
  (c' : store) :
  let k := CacheLock._cache_key (LoggedSingleTask.lock t) in
  let held := {| w_cache := <[k := 1]> (w_cache w); w_trace := w_trace w |} in
  CacheLock.locked (LoggedSingleTask.lock t) (w_cache w)
  = (w_cache w, Return false) ->
  LoggedTask.run (LoggedSingleTask.super t) a
    (fst (CacheLock.acquire (LoggedSingleTask.lock t) (w_cache w)))
  = (c', Return (PyBool false)) ->
  snd (LoggedSingleTask.__call__ t a w) = Return (PyBool false) /\
  snd (LoggedSingleTask.__call__ t a held) = Return (PyBool false) /\
  snd (trace_task t task_id a w) = Return (SUCCESS (PyBool false)) /\
  snd (trace_task t task_id a held) = Return (SUCCESS (PyBool false)).
Proof.
  intros k held Hfree Hrun.
  assert (Hne : (counter k (w_cache w) =? 1) = false).
  { rewrite locked_run in Hfree. fold k in Hfree. by inversion Hfree. }
  assert (Hran : snd (LoggedSingleTask.__call__ t a w) = Return (PyBool false)).
  { rewrite single_call_cases. fold k. by rewrite Hne, Hrun. }
  assert (Hskip : snd (LoggedSingleTask.__call__ t a held)
                  = Return (PyBool false)).
  { rewrite single_call_cases. fold k. simpl. by rewrite counter_insert. }
  split; [done |]. split; [done |]. split.
  - unfold trace_task.
    destruct (LoggedSingleTask.__call__ t a w) as [w' [v | e]];
      simpl in Hran; [| done].
    inversion Hran; subst. unfold bind. by rewrite single_on_success_run.
  - unfold trace_task.
    destruct (LoggedSingleTask.__call__ t a held) as [w' [v | e]];
      simpl in Hskip; [| done].
    inversion Hskip; subst. unfold bind. by rewrite single_on_success_run.
Qed.

Lemma skipped_outcome_not_distinct_from_false_result_witness :
  CacheLock.locked (LoggedSingleTask.lock false_task) (w_cache fresh_world)
  = (w_cache fresh_world, Return false) /\
  LoggedTask.run (LoggedSingleTask.super false_task) no_args
    (fst (CacheLock.acquire (LoggedSingleTask.lock false_task)
            (w_cache fresh_world)))
  = ({[ "lock_sync" := 1 ]}, Return (PyBool false)) /\
  snd (LoggedSingleTask.__call__ false_task no_args fresh_world)
  = Return (PyBool false) /\
  snd (LoggedSingleTask.__call__ false_task no_args
         {| w_cache := {[ "lock_sync" := 1 ]}; w_trace := [] |})
  = Return (PyBool false).
Proof.
  assert (Hfree : CacheLock.locked (LoggedSingleTask.lock false_task)
                    (w_cache fresh_world)
                  = (w_cache fresh_world, Return false)) by reflexivity.
  assert (Hrun : LoggedTask.run (LoggedSingleTask.super false_task) no_args
                   (fst (CacheLock.acquire (LoggedSingleTask.lock false_task)
                           (w_cache fresh_world)))
                 = ({[ "lock_sync" := 1 ]}, Return (PyBool false)))
    by reflexivity.
  split; [exact Hfree |]. split; [exact Hrun |].
  destruct (skipped_outcome_not_distinct_from_false_result
              false_task "id1" no_args fresh_world _ Hfree Hrun)
    as (Hran & Hskip & _ & _).
  exact (conj Hran Hskip).
Defined.



(** ** [prevent_single_task_duplication] *)

Lemma guard_on_held_lock
  (tasks : gmap string registered) (sender : string)
  (body : gmap string string) (d : dispatch)
  (task : registered) (lock : CacheLock.t) :
  tasks !! sender = Some task ->
  reg_single_run task = Some true ->
  reg_lock task = Some lock ->
  d_cache d !! CacheLock._cache_key lock = Some 1 ->
  prevent_single_task_duplication tasks sender body d
  = match body !! "id" with
    | Some task_id =>
        ({| d_cache := d_cache d;
            d_events :=
              d_events d ++
                [CtlLog "celery.tasks"
                   "%s > Task (%s) revoked due is currently being executed"
                   [reg_TAG task; task_id];
                 CtlRevoke task_id] |}, Return tt)
    | None =>
        ({| d_cache := d_cache d; d_events := d_events d |},
         Raise (OtherError "KeyError" "'id'"))
    end.
Proof.
  intros Htask Hsingle Hlock Hheld.
  unfold prevent_single_task_duplication. rewrite Htask, Hsingle, Hlock. simpl.
  unfold bind at 1, d_on_cache. rewrite locked_run.
  unfold counter. rewrite Hheld. simpl.
  unfold body_id, bind, d_emit, ret, raise.
  destruct (body !! "id") as [task_id|]; simpl; [| done].
  by rewrite <- app_assoc.
Qed.

Lemma guard_without_held_lock
  (tasks : gmap string registered) (sender : string)
  (body : gmap string string) (d : dispatch) :
  ~ (exists (task : registered) (lock : CacheLock.t),
       tasks !! sender = Some task /\
       reg_single_run task = Some true /\
       reg_lock task = Some lock /\
       d_cache d !! CacheLock._cache_key lock = Some 1) ->
  let r := prevent_single_task_duplication tasks sender body d in
  snd r = Return tt /\
  d_cache (fst r) = d_cache d /\
  d_events (fst r) = d_events d.
Proof.
  intros Hno. unfold prevent_single_task_duplication.
  destruct (tasks !! sender) as [task|] eqn:Htask; [| done].
  destruct (reg_single_run task) as [[|]|] eqn:Hsingle; simpl; try done.
  destruct (reg_lock task) as [lock|] eqn:Hlock; [| done].
  unfold bind, d_on_cache. rewrite locked_run. unfold counter.
  destruct (d_cache d !! CacheLock._cache_key lock) as [v|] eqn:Hv; simpl;
    [| done].
  destruct (Z.eqb_spec v 1) as [-> | Hne]; [| done].
  exfalso. apply Hno. by exists task, lock.
Qed.

Lemma guard_lock_held_or_not
  (tasks : gmap string registered) (sender : string) (d : dispatch) :
  let held :=
    exists (task : registered) (lock : CacheLock.t),
      tasks !! sender = Some task /\
      reg_single_run task = Some true /\
      reg_lock task = Some lock /\
      d_cache d !! CacheLock._cache_key lock = Some 1 in
  held \/ ~ held.
Proof.
  simpl.
  destruct (tasks !! sender) as [task|] eqn:Htask;
    [| right; by intros (? & ? & ? & _)].
  destruct (decide (reg_single_run task = Some true)) as [Hsingle | Hsingle];
    [| right; intros (? & ? & Ht & ? & _); congruence].
  destruct (reg_lock task) as [lock|] eqn:Hlock;
    [| right; intros (? & ? & Ht & _ & ? & _); congruence].
  destruct (decide (d_cache d !! CacheLock._cache_key lock = Some 1))
    as [Hheld | Hfree].
  - left. by exists task, lock.
  - right. intros (task' & lock' & Ht & _ & Hl & Hv).
    inversion Ht; subst. rewrite Hlock in Hl. inversion Hl; subst. done.
Qed.

(** X21. The hook revokes the dispatched instance exactly when the sender is
    a registered task with a true [single_run], a [lock], and a lock key that
    holds 1 in the cache: then it logs once and sends one [revoke] for the
    instance's id; otherwise it does nothing.  It never writes to the
    cache. *)
Theorem duplication_guard_revokes_iff_lock_held
  (tasks : gmap string registered) (sender : string)
  (body : gmap string string) (task_id : string) (d : dispatch) :
  body !! "id" = Some task_id ->
  let r := prevent_single_task_duplication tasks sender body d in
  let held :=
    exists (task : registered) (lock : CacheLock.t),
      tasks !! sender = Some task /\
      reg_single_run task = Some true /\
      reg_lock task = Some lock /\
      d_cache d !! CacheLock._cache_key lock = Some 1 in
  snd r = Return tt /\
  d_cache (fst r) = d_cache d /\
  (held <->
   exists task : registered,
     tasks !! sender = Some task /\
     d_events (fst r)
     = (d_events d ++
          [CtlLog "celery.tasks"
             "%s > Task (%s) revoked due is currently being executed"
             [reg_TAG task; task_id];
           CtlRevoke task_id])%list) /\
  (~ held <-> d_events (fst r) = d_events d).
Proof.
  intros Hid r held.
  destruct (guard_lock_held_or_not tasks sender d) as [Hheld | Hno].
  - destruct Hheld as (task & lock & Htask & Hsingle & Hlock & Hv).
    assert (Hr : r = ({| d_cache := d_cache d;
                         d_events :=
                           d_events d ++
                             [CtlLog "celery.tasks"
                                "%s > Task (%s) revoked due is currently being executed"
                                [reg_TAG task; task_id];
                              CtlRevoke task_id] |}, Return tt)).
    { unfold r. rewrite (guard_on_held_lock _ _ _ _ task lock) by done.
      by rewrite Hid. }
    assert (Hheld : held) by by exists task, lock.
    rewrite Hr. simpl. split; [done |]. split; [done |]. split.
    + split; [intros _; by exists task | done].
    + split; [done |]. intros Heq.
      apply (f_equal length) in Heq. rewrite length_app in Heq.
      simpl in Heq. lia.
  - destruct (guard_without_held_lock tasks sender body d Hno)
      as (Hret & Hcache & Hevents).
    fold r in Hret, Hcache, Hevents.
    split; [done |]. split; [done |]. split; [| done].
    split; [done |]. intros (task & _ & Heq). rewrite Hevents in Heq.
    apply (f_equal length) in Heq. rewrite length_app in Heq.
    simpl in Heq. lia.
Qed.

Lemma duplication_guard_revokes_iff_lock_held_witness :
  sync_body !! "id" = Some "id2" /\
  d_events
    (fst (prevent_single_task_duplication sync_registry "tasks.sync" sync_body
            {| d_cache := {[ "lock_sync" := 1 ]}; d_events := [] |}))
  <> [] /\
  snd (prevent_single_task_duplication sync_registry "tasks.sync" sync_body
         {| d_cache := {[ "lock_sync" := 1 ]}; d_events := [] |})
  = Return tt.
Proof.
  assert (Hid : sync_body !! "id" = Some "id2") by reflexivity.
  split; [exact Hid |].
  destruct (duplication_guard_revokes_iff_lock_held
              sync_registry "tasks.sync" sync_body "id2"
              {| d_cache := {[ "lock_sync" := 1 ]}; d_events := [] |} Hid)
    as (Hret & _ & _ & Hno).
  split; [| exact Hret].
  intros Hnil. apply Hno in Hnil. apply Hnil.
  exists (registered_single sync_task), sync_lock.
  repeat split; reflexivity.
Defined.

(** X22. When the lock is held and the message body has no ['id'], the hook
    raises [KeyError] before it logs or revokes anything. *)
Theorem duplication_guard_without_id_raises
  (tasks : gmap string registered) (sender : string)
  (body : gmap string string) (d : dispatch)
  (task : registered) (lock : CacheLock.t) :
  tasks !! sender = Some task ->
  reg_single_run task = Some true ->
  reg_lock task = Some lock ->
  d_cache d !! CacheLock._cache_key lock = Some 1 ->
  body !! "id" = None ->
  let r := prevent_single_task_duplication tasks sender body d in
  snd r = Raise (OtherError "KeyError" "'id'") /\
  d_events (fst r) = d_events d /\
  d_cache (fst r) = d_cache d.
Proof.
  intros Htask Hsingle Hlock Hheld Hid r. unfold r.
  rewrite (guard_on_held_lock _ _ _ _ task lock) by done.
  by rewrite Hid.
Qed.

Lemma duplication_guard_without_id_raises_witness :
  sync_registry !! "tasks.sync" = Some (registered_single sync_task) /\
  reg_single_run (registered_single sync_task) = Some true /\
  reg_lock (registered_single sync_task) = Some sync_lock /\
  ({[ "lock_sync" := 1 ]} : store) !! CacheLock._cache_key sync_lock = Some 1 /\
  (∅ : gmap string string) !! "id" = None /\
  snd (prevent_single_task_duplication sync_registry "tasks.sync" ∅
         {| d_cache := {[ "lock_sync" := 1 ]}; d_events := [] |})
  = Raise (OtherError "KeyError" "'id'").
Proof.
  assert (Htask : sync_registry !! "tasks.sync"
                  = Some (registered_single sync_task)) by reflexivity.
  assert (Hsingle : reg_single_run (registered_single sync_task) = Some true)
    by reflexivity.
  assert (Hlock : reg_lock (registered_single sync_task) = Some sync_lock)
    by reflexivity.
  assert (Hheld : ({[ "lock_sync" := 1 ]} : store)
                    !! CacheLock._cache_key sync_lock = Some 1)
    by reflexivity.
  assert (Hid : (∅ : gmap string string) !! "id" = None) by reflexivity.
  split; [exact Htask |]. split; [exact Hsingle |]. split; [exact Hlock |].
  split; [exact Hheld |]. split; [exact Hid |].
  exact (proj1 (duplication_guard_without_id_raises
                  sync_registry "tasks.sync" ∅
                  {| d_cache := {[ "lock_sync" := 1 ]}; d_events := [] |}
                  _ _ Htask Hsingle Hlock Hheld Hid)).
Defined.

(** X23. An unknown sender and a plain [LoggedTask] are never revoked,
    whatever the cache holds and whatever the body is: the hook returns
    without logging, revoking, or looking up the id. *)
Theorem duplication_guard_ignores_plain_tasks
  (tasks : gmap string registered) (sender : string)
  (body : gmap string string) (d : dispatch) :
  tasks !! sender = None \/
  (exists t : LoggedTask.t, tasks !! sender = Some (registered_logged t)) ->
  let r := prevent_single_task_duplication tasks sender body d in
  snd r = Return tt /\
  d_events (fst r) = d_events d /\
  d_cache (fst r) = d_cache d.
Proof.
  intros Hplain r. unfold r.
  destruct (guard_without_held_lock tasks sender body d)
    as (Hret & Hcache & Hevents); [| done].
  intros (task & lock & Htask & Hsingle & _).
  destruct Hplain as [Hnone | (t & Ht)]; [congruence |].
  rewrite Ht in Htask. by inversion Htask; subst.
Qed.

Lemma duplication_guard_ignores_plain_tasks_witness :
  (sync_registry !! "tasks.other" = None \/
   (exists t : LoggedTask.t,
      sync_registry !! "tasks.other" = Some (registered_logged t))) /\
  d_events
    (fst (prevent_single_task_duplication sync_registry "tasks.other" ∅
            {| d_cache := {[ "lock_sync" := 1 ]}; d_events := [] |}))
  = [].
Proof.
  assert (Hplain : sync_registry !! "tasks.other" = None \/
                   (exists t : LoggedTask.t,
                      sync_registry !! "tasks.other"
                      = Some (registered_logged t)))
    by (left; reflexivity).
  split; [exact Hplain |].
  exact (proj1 (proj2 (duplication_guard_ignores_plain_tasks
                         sync_registry "tasks.other" ∅
                         {| d_cache := {[ "lock_sync" := 1 ]};
                            d_events := [] |} Hplain))).
Defined.


